(** * Excel tool server: the dispatcher of [app.py] and its properties

    The development embeds [load_workbook_from_b64], [parse_range_string]
    and [run_tool] of [app.py], and its two read-only endpoints [healthz]
    and [get_info].  Python values are modelled as follows.

    - [str] is [string]; a character is one byte, text outside ASCII is its
      UTF-8 byte sequence, so [encode('utf-8')] is the identity.
    - [int] is [Z]; [float] is an IEEE 754 binary64 number, [spec_float]
      with precision 53 and maximal exponent 1024, rounded to nearest even.
    - a parsed JSON body is a [json] tree.
    - exceptions are values of [exn] carried by the [result] type; [try] /
      [except] is a match on the class of the exception.
    - the calls into [base64] and into the file reader and writer of
      [openpyxl], and [float] on text outside ASCII, are fields of the
      record [Library]: their code is not part of the program.  What
      [openpyxl] does on a workbook in memory (sheet
      lookup by title, the active sheet, [ws[key]], [ws[key] = v],
      [iter_rows]) is modelled on a workbook that maps coordinates to
      values.  A cell holds nothing, a boolean, an integer, a float or
      text; dates, merged cells and styles are left out. *)

From Stdlib Require Import ZArith List String Ascii Bool Lia.
From Stdlib Require Import Floats.SpecFloat DecimalString.
From Stdlib Require DecimalPos.
From stdpp Require Import base option list gmap strings.
Import ListNotations.
Local Open Scope string_scope.
Local Open Scope list_scope.
Local Open Scope Z_scope.

(** ** The Python runtime *)

Module Py.

(** *** Exceptions *)

Inductive exn_class :=
| KeyError | TypeError | ValueError | BinasciiError | AttributeError
| IndexError | OverflowError | ZeroDivisionError | OSError | HTTPException
| OtherError.

Record exn := Exn { exn_cls : exn_class; exn_msg : string }.

Inductive result (A : Type) :=
| Ok (a : A)
| Raise (e : exn).
Arguments Ok {A} a.
Arguments Raise {A} e.

Definition rbind {A B} (m : result A) (k : A -> result B) : result B :=
  match m with
  | Ok a => k a
  | Raise e => Raise e
  end.

Definition raise {A} (c : exn_class) (msg : string) : result A :=
  Raise (Exn c msg).

(** *** Strings *)

Definition chr (n : nat) : ascii := ascii_of_nat n.

Definition c_bang : ascii := "!"%char.
Definition c_comma : ascii := ","%char.
Definition c_colon : ascii := ":"%char.
Definition c_quote : ascii := chr 34.
Definition c_cr : ascii := chr 13.
Definition c_lf : ascii := chr 10.

Definition chars (s : string) : list ascii := list_ascii_of_string s.
Definition str (l : list ascii) : string := string_of_list_ascii l.

(** [c in s] for a one-character [c]. *)
Fixpoint contains (c : ascii) (s : string) : bool :=
  match s with
  | EmptyString => false
  | String a s' => if Ascii.eqb a c then true else contains c s'
  end.

(** [s.split(c, 1)]: the text before the first [c] and the text after it,
    or [None] when [c] does not occur (Python then returns the one-element
    list [[s]]). *)
Fixpoint split_once (c : ascii) (s : string) : option (string * string) :=
  match s with
  | EmptyString => None
  | String a s' =>
      if Ascii.eqb a c then Some (EmptyString, s')
      else match split_once c s' with
           | Some (h, t) => Some (String a h, t)
           | None => None
           end
  end.

(** *** JSON values: request bodies, parameters and response bodies *)

Definition float := spec_float.

#[warnings="-register-all"]
Inductive json :=
| JNull
| JBool (b : bool)
| JInt (z : Z)
| JFloat (f : float)
| JStr (s : string)
| JArr (l : list json)
| JObj (kvs : list (string * json)).

(** A JSON object is parsed into a [dict]: of two members with the same
    key the later one is kept. *)
Fixpoint assoc_last (k : string) (kvs : list (string * json)) : option json :=
  match kvs with
  | [] => None
  | (k', v) :: rest =>
      match assoc_last k rest with
      | Some v' => Some v'
      | None => if String.eqb k' k then Some v else None
      end
  end.

(** The name Python prints for the type of a value. *)
Definition type_name (j : json) : string :=
  match j with
  | JNull => "NoneType"
  | JBool _ => "bool"
  | JInt _ => "int"
  | JFloat _ => "float"
  | JStr _ => "str"
  | JArr _ => "list"
  | JObj _ => "dict"
  end.

(** [d.get(key, default)]; only a [dict] has the method. *)
Definition py_get (d : json) (key : string) (default : json) : result json :=
  match d with
  | JObj kvs => Ok (match assoc_last key kvs with Some v => v | None => default end)
  | _ => raise AttributeError
           ("'" ++ type_name d ++ "' object has no attribute 'get'")
  end.

(** [d[key]] for a string [key]. *)
Definition py_index (d : json) (key : string) : result json :=
  match d with
  | JObj kvs =>
      match assoc_last key kvs with
      | Some v => Ok v
      | None => raise KeyError ("'" ++ key ++ "'")
      end
  | JStr _ => raise TypeError "string indices must be integers, not 'str'"
  | JArr _ => raise TypeError "list indices must be integers or slices, not str"
  | _ => raise TypeError ("'" ++ type_name d ++ "' object is not subscriptable")
  end.

(** *** Numbers *)

Definition prec : Z := 53.
Definition emax : Z := 1024.

Inductive pynum :=
| PInt (z : Z)
| PFloat (f : float).

(** An integer as an unrounded binary number. *)
Definition raw_of_Z (z : Z) : float :=
  match z with
  | Z0 => S754_zero false
  | Zpos p => S754_finite false p 0
  | Zneg p => S754_finite true p 0
  end.

Definition is_infinite (f : float) : bool :=
  match f with S754_infinity _ => true | _ => false end.

(** [float(n)] for an [int]: rounded to nearest even, [OverflowError]
    when the result is out of range. *)
Definition float_of_int (z : Z) : result float :=
  let f := binary_normalize prec emax z 0 false in
  if is_infinite f then raise OverflowError "int too large to convert to float"
  else Ok f.

Definition fadd (x y : float) : float := SFadd prec emax x y.
Definition fdiv (x y : float) : float := SFdiv prec emax x y.

(** [a + b] on [int] and [float] operands. *)
Definition py_add (a b : pynum) : result pynum :=
  match a, b with
  | PInt x, PInt y => Ok (PInt (x + y))
  | PInt x, PFloat g => rbind (float_of_int x) (fun f => Ok (PFloat (fadd f g)))
  | PFloat f, PInt y => rbind (float_of_int y) (fun g => Ok (PFloat (fadd f g)))
  | PFloat f, PFloat g => Ok (PFloat (fadd f g))
  end.

(** [a / n] for a non-zero [int] [n]: the correctly rounded quotient. *)
Definition py_truediv (a : pynum) (n : Z) : result pynum :=
  if (n =? 0)%Z then raise ZeroDivisionError "division by zero"
  else match a with
       | PInt x =>
           let q := fdiv (raw_of_Z x) (raw_of_Z n) in
           if is_infinite q
           then raise OverflowError "integer division result too large for a float"
           else Ok (PFloat q)
       | PFloat f => rbind (float_of_int n) (fun g => Ok (PFloat (fdiv f g)))
       end.

Definition json_of_num (n : pynum) : json :=
  match n with
  | PInt z => JInt z
  | PFloat f => JFloat f
  end.

(** [float(s)] for a string of ASCII characters.

    The text is stripped of white space, then read as an optional sign
    followed by [inf], [infinity] or [nan] (in any case) or by a decimal
    number: digits, an optional fraction, an optional exponent, with single
    underscores allowed between digits.  The decimal number is rounded once,
    to nearest even; a value out of range becomes an infinity.  In a string
    of ASCII characters the white space is the space and the characters 9
    to 13, and the digits are 0 to 9; what [float] does with the white
    space and the digits of other scripts is not computed here, see
    [float_of_str] below. *)

Definition is_space (c : ascii) : bool :=
  let n := nat_of_ascii c in
  ((n =? 32) || ((9 <=? n) && (n <=? 13)))%nat.

Definition is_digit (c : ascii) : bool :=
  let n := nat_of_ascii c in ((48 <=? n) && (n <=? 57))%nat.

Definition digit_val (c : ascii) : Z := Z.of_nat (nat_of_ascii c) - 48.

Definition lower (c : ascii) : ascii :=
  let n := nat_of_ascii c in
  if ((65 <=? n) && (n <=? 90))%nat then ascii_of_nat (n + 32) else c.

Fixpoint lstrip (l : list ascii) : list ascii :=
  match l with
  | c :: l' => if is_space c then lstrip l' else l
  | [] => []
  end.

Definition strip (l : list ascii) : list ascii :=
  rev (lstrip (rev (lstrip l))).

(** The value of a run of decimal digits, most significant first. *)
Definition digits_val (ds : list ascii) : Z :=
  fold_left (fun acc d => 10 * acc + digit_val d) ds 0.

(** [digit (["_"] digit)*]: the digits read and the rest of the text. *)
Fixpoint digitpart (l : list ascii) : list ascii * list ascii :=
  match l with
  | d :: l' =>
      if is_digit d then
        match l' with
        | u :: ((d' :: _) as l'') =>
            if Ascii.eqb u "_" && is_digit d'
            then let '(ds, r) := digitpart l'' in (d :: ds, r)
            else let '(ds, r) := digitpart l' in (d :: ds, r)
        | _ => let '(ds, r) := digitpart l' in (d :: ds, r)
        end
      else ([], l)
  | [] => ([], [])
  end.

Definition read_sign (l : list ascii) : bool * list ascii :=
  match l with
  | c :: l' =>
      if Ascii.eqb c "-" then (true, l')
      else if Ascii.eqb c "+" then (false, l')
      else (false, l)
  | [] => (false, [])
  end.

(** [[eE] [sign] digitpart] at the end of the text; [Some 0] when the text
    has ended already. *)
Definition read_exponent (l : list ascii) : option Z :=
  match l with
  | [] => Some 0
  | c :: l' =>
      if Ascii.eqb (lower c) "e" then
        let '(neg, l1) := read_sign l' in
        match digitpart l1 with
        | ([], _) => None
        | (ds, []) => Some (if neg then - digits_val ds else digits_val ds)
        | (_, _ :: _) => None
        end
      else None
  end.

(** [m * 10^e] as a [float], rounded once. *)
Definition float_of_decimal (neg : bool) (m e : Z) : float :=
  match m with
  | Z0 => S754_zero neg
  | _ =>
      let sm := if neg then - m else m in
      if 0 <=? e then binary_normalize prec emax (sm * 10 ^ e) 0 false
      else fdiv (raw_of_Z sm) (raw_of_Z (10 ^ (- e)))
  end.

Definition read_number (neg : bool) (l : list ascii) : option float :=
  let '(ip, r1) := digitpart l in
  let '(fp, r2) :=
    match r1 with
    | c :: r => if Ascii.eqb c "." then digitpart r else ([], r1)
    | [] => ([], [])
    end in
  match ip ++ fp with
  | [] => None
  | ds =>
      match read_exponent r2 with
      | Some e => Some (float_of_decimal neg (digits_val ds) (e - Z.of_nat (length fp)))
      | None => None
      end
  end.

Definition py_float (s : string) : option float :=
  let '(neg, body) := read_sign (strip (chars s)) in
  let word := str (map lower body) in
  if String.eqb word "inf" || String.eqb word "infinity"
  then Some (S754_infinity neg)
  else if String.eqb word "nan" then Some S754_nan
  else read_number neg body.

(** [str(n)] for an [int]. *)
Definition str_of_int (z : Z) : string := NilZero.string_of_int (Z.to_int z).

(** Every character of the string is an ASCII character. *)
Definition is_ascii (s : string) : bool :=
  forallb (fun c => (nat_of_ascii c <? 128)%nat) (chars s).

(** [repr(s)] for a string, which is also [str(e)] for a [KeyError] [e]
    raised with the message [s].

    The text is enclosed in single quotes, or in double quotes when it has
    a single quote and no double quote; the enclosing quote and the
    backslash are escaped with a backslash, tab, line feed and carriage
    return are written [\t], [\n] and [\r], and the other control
    characters as [\x] and two hexadecimal digits.  The bytes of a
    character outside ASCII are kept, as [repr] keeps such a character when
    it is printable. *)
Definition c_backslash : ascii := chr 92.
Definition c_apostrophe : ascii := chr 39.

Definition hex_digit (n : nat) : ascii :=
  ascii_of_nat (if (n <? 10)%nat then 48 + n else 87 + n).

Definition escape_char (quote c : ascii) : list ascii :=
  let n := nat_of_ascii c in
  if Ascii.eqb c quote || Ascii.eqb c c_backslash then [c_backslash; c]
  else if (n =? 9)%nat then [c_backslash; "t"%char]
  else if (n =? 10)%nat then [c_backslash; "n"%char]
  else if (n =? 13)%nat then [c_backslash; "r"%char]
  else if ((n <? 32) || (n =? 127))%nat
       then [c_backslash; "x"%char; hex_digit (n / 16); hex_digit (n mod 16)]
  else [c].

Definition py_repr (s : string) : string :=
  let l := chars s in
  let quote :=
    if existsb (Ascii.eqb c_apostrophe) l && negb (existsb (Ascii.eqb c_quote) l)
    then c_quote else c_apostrophe in
  str (quote :: flat_map (escape_char quote) l ++ [quote]).

End Py.

(** ** Workbooks in memory *)

Module Xl.
Import Py.

(** The value of a cell: empty, a boolean, a number or text. *)
Inductive cell_value :=
| VNone
| VBool (b : bool)
| VInt (z : Z)
| VFloat (f : float)
| VStr (s : string).

(** A cell object: its coordinates and [cell.value]. *)
Record Cell := mkCell { row : positive; column : positive; value : cell_value }.

(** A worksheet: its title and the cells it holds, keyed by (row, column),
    both counted from 1. *)
Record Worksheet := mkSheet {
  title : string;
  cells : gmap (positive * positive) cell_value
}.

(** A workbook: its sheets in order and the index of the active one. *)
Record Workbook := mkBook {
  sheets : list Worksheet;
  active_index : nat
}.

(** [ws.max_row] and [ws.max_column]: the largest index in use, 1 for a
    sheet without cells. *)
Definition max_row (ws : Worksheet) : positive :=
  map_fold (fun k _ acc => Pos.max (fst k) acc) 1%positive (cells ws).

Definition max_column (ws : Worksheet) : positive :=
  map_fold (fun k _ acc => Pos.max (snd k) acc) 1%positive (cells ws).

(** [ws.cell(row, column)]: a cell that is not stored reads as empty. *)
Definition cell_at (ws : Worksheet) (r c : positive) : Cell :=
  mkCell r c (default VNone (cells ws !! (r, c))).

(** The integers [lo, lo+1, ..., hi] as [range(lo, hi + 1)] lists them. *)
Definition zrange (lo hi : Z) : list Z :=
  map (fun i => lo + Z.of_nat i) (seq 0 (Z.to_nat (hi + 1 - lo))).

(** [ws.iter_rows(min_row, max_row, min_col, max_col)] as a tuple. *)
Definition cells_by_row (ws : Worksheet) (min_col min_row max_col max_row : Z)
  : list (list Cell) :=
  map (fun r => map (fun c => cell_at ws (Z.to_pos r) (Z.to_pos c))
                    (zrange min_col max_col))
      (zrange min_row max_row).

(** [ws.iter_cols(min_col, max_col, min_row, max_row)] as a tuple. *)
Definition cells_by_col (ws : Worksheet) (min_col min_row max_col max_row : Z)
  : list (list Cell) :=
  map (fun c => map (fun r => cell_at ws (Z.to_pos r) (Z.to_pos c))
                    (zrange min_row max_row))
      (zrange min_col max_col).

(** [wb[name]]: the first sheet with that title, and a [KeyError] when
    there is none, whose text is the [repr] of its message. *)
Definition wb_getitem (wb : Workbook) (name : string) : result Worksheet :=
  match find (fun ws => String.eqb (title ws) name) (sheets wb) with
  | Some ws => Ok ws
  | None => raise KeyError (py_repr ("Worksheet " ++ name ++ " does not exist."))
  end.

(** [wb.active]: the sheet at the active index, [None] when there is none. *)
Definition wb_active (wb : Workbook) : option Worksheet :=
  nth_error (sheets wb) (active_index wb).

(** *** Addresses

    A key is read as one corner, or two corners separated by a colon; a
    corner is an optional [$], up to three letters, an optional [$] and
    digits.  The forms modelled are a cell ([B2]), a span between two
    corners ([A1:B10]), whole columns ([A], [A:C]) and whole rows ([1],
    [1:3]), with every row number between 1 and 1048576.  What [ws[key]]
    does with any other key is left to [getitem_other] below. *)

Inductive address :=
| ACell (col r : Z)
| ASpan (c1 r1 c2 r2 : Z)
| ACols (c1 c2 : Z)
| ARows (r1 r2 : Z).

Definition is_letter (c : ascii) : bool :=
  let n := nat_of_ascii (lower c) in ((97 <=? n) && (n <=? 122))%nat.

Fixpoint take_letters (k : nat) (l : list ascii) : list ascii * list ascii :=
  match k, l with
  | S k', c :: l' =>
      if is_letter c
      then let '(a, r) := take_letters k' l' in (c :: a, r)
      else ([], l)
  | _, _ => ([], l)
  end.

Fixpoint take_digits (l : list ascii) : list ascii * list ascii :=
  match l with
  | c :: l' =>
      if is_digit c
      then let '(a, r) := take_digits l' in (c :: a, r)
      else ([], l)
  | [] => ([], [])
  end.

Definition drop_dollar (l : list ascii) : list ascii :=
  match l with
  | c :: l' => if Ascii.eqb c "$" then l' else l
  | [] => []
  end.

(** The letters and the digits of one corner, and the text after it. *)
Definition parse_corner (l : list ascii)
  : list ascii * list ascii * list ascii :=
  let '(ls, l1) := take_letters 3 (drop_dollar l) in
  let '(ds, l2) := take_digits (drop_dollar l1) in
  (ls, ds, l2).

(** [column_index_from_string]: [A] is 1, [Z] is 26, [AA] is 27. *)
Definition column_index (ls : list ascii) : Z :=
  fold_left (fun acc c => 26 * acc + (Z.of_nat (nat_of_ascii (lower c)) - 96))
            ls 0.

Definition row_ok (r : Z) : bool := (1 <=? r) && (r <=? 1048576).

Definition is_nil {A} (l : list A) : bool :=
  match l with [] => true | _ => false end.

Definition parse_address (key : string) : option address :=
  let '(c1, r1, rest) := parse_corner (chars key) in
  let col1 := column_index c1 in
  let row1 := digits_val r1 in
  match rest with
  | [] =>
      match is_nil c1, is_nil r1 with
      | false, false => if row_ok row1 then Some (ACell col1 row1) else None
      | false, true => Some (ACols col1 col1)
      | true, false => if row_ok row1 then Some (ARows row1 row1) else None
      | true, true => None
      end
  | sep :: rest' =>
      if Ascii.eqb sep c_colon then
        let '(c2, r2, rest2) := parse_corner rest' in
        let col2 := column_index c2 in
        let row2 := digits_val r2 in
        if is_nil rest2 then
          match is_nil c1, is_nil r1, is_nil c2, is_nil r2 with
          | false, false, false, false =>
              if row_ok row1 && row_ok row2
              then Some (ASpan col1 row1 col2 row2) else None
          | false, true, false, true => Some (ACols col1 col2)
          | true, false, true, false =>
              if row_ok row1 && row_ok row2
              then Some (ARows row1 row2) else None
          | _, _, _, _ => None
          end
        else None
      else None
  end.

(** What [ws[key]] returns: a cell, a tuple of cells, or a tuple of tuples
    of cells. *)
Inductive Resolved :=
| RCell (c : Cell)
| RTuple (cs : list Cell)
| RGrid (rows : list (list Cell)).

(** The first element of a one-element tuple of tuples, as [ws[key]]
    returns it for a single row or column. *)
Definition unwrap_single (same : bool) (tuples : list (list Cell)) : Resolved :=
  if same then RTuple (hd [] tuples) else RGrid tuples.

Definition resolve_address (ws : Worksheet) (a : address) : Resolved :=
  match a with
  | ACell c r => RCell (cell_at ws (Z.to_pos r) (Z.to_pos c))
  | ASpan c1 r1 c2 r2 => RGrid (cells_by_row ws c1 r1 c2 r2)
  | ACols c1 c2 =>
      unwrap_single (c1 =? c2) (cells_by_col ws c1 1 c2 (Zpos (max_row ws)))
  | ARows r1 r2 =>
      unwrap_single (r1 =? r2) (cells_by_row ws 1 r1 (Zpos (max_column ws)) r2)
  end.

(** *** Operations supplied from outside the program

    The record collects what the model does not compute: the base64 codec,
    the reader and the writer of the file format, [ws[key]] for a key that
    is none of the address forms above, the text Python prints for a
    [float] and for a list or a dictionary, and [float(s)] for a string
    that has a character outside ASCII. *)
Record Library := mkLibrary {
  b64decode : string -> result string;
  b64encode : string -> string;
  load_workbook : string -> result Workbook;
  save_workbook : Workbook -> result string;
  getitem_other : Worksheet -> string -> result Resolved;
  float_repr : float -> string;
  container_repr : json -> string;
  float_of_text : string -> option float
}.

(** [ws[key]]. *)
Definition ws_getitem (lib : Library) (ws : Worksheet) (key : string)
  : result Resolved :=
  match parse_address key with
  | Some a => Ok (resolve_address ws a)
  | None => getitem_other lib ws key
  end.

(** *** Assigning to [cell.value]

    The setter keeps a number as it is.  Text is cut to its first 32767
    characters, and is refused when what is left has a control character
    other than tab, line feed and carriage return. *)

Definition is_illegal (c : ascii) : bool :=
  let n := nat_of_ascii c in
  ((n <=? 8) || ((11 <=? n) && (n <=? 12)) || ((14 <=? n) && (n <=? 31)))%nat.

(** A byte that continues a character of UTF-8 text. *)
Definition is_continuation (c : ascii) : bool :=
  let n := nat_of_ascii c in ((128 <=? n) && (n <=? 191))%nat.

(** The first [n] characters of a text: a character begins at every byte
    that is not a continuation byte. *)
Fixpoint take_chars (n : N) (l : list ascii) : list ascii :=
  match l with
  | [] => []
  | c :: l' =>
      if is_continuation c then c :: take_chars n l'
      else if (n =? 0)%N then []
      else c :: take_chars (N.pred n) l'
  end.

Definition max_text_length : N := 32767.

(** [check_string(value)], with the message of [openpyxl] 3.1. *)
Definition check_string (s : string) : result string :=
  let cut := take_chars max_text_length (chars s) in
  if existsb is_illegal cut
  then raise OtherError (str cut ++ " cannot be used in worksheets.")
  else Ok (str cut).

(** The value a cell holds after [cell.value = v]. *)
Definition bind_value (v : cell_value) : result cell_value :=
  match v with
  | VStr s => rbind (check_string s) (fun s' => Ok (VStr s'))
  | _ => Ok v
  end.

(** [ws[key] = v], that is [ws[key].value = v]: only a cell has the
    attribute.  The sheet is changed in place. *)
Definition ws_setitem (lib : Library) (ws : Worksheet) (key : string)
    (v : cell_value) : result Worksheet :=
  rbind (ws_getitem lib ws key) (fun res =>
    match res with
    | RCell c =>
        rbind (bind_value v) (fun v' =>
        Ok (mkSheet (title ws) (<[(row c, column c) := v']> (cells ws))))
    | _ => raise AttributeError "'tuple' object has no attribute 'value'"
    end).

(** The workbook after the sheet called [name] was changed in place. *)
Fixpoint replace_sheet (name : string) (ws' : Worksheet) (l : list Worksheet)
  : list Worksheet :=
  match l with
  | [] => []
  | ws :: rest =>
      if String.eqb (title ws) name then ws' :: rest
      else ws :: replace_sheet name ws' rest
  end.

Definition update_sheet (wb : Workbook) (name : string) (ws' : Worksheet)
  : Workbook :=
  mkBook (replace_sheet name ws' (sheets wb)) (active_index wb).

(** [ws.iter_rows(values_only=True)]: nothing for a sheet without cells,
    otherwise rows 1 to [max_row], each with columns 1 to [max_column]. *)
Definition iter_rows_values (ws : Worksheet) : list (list cell_value) :=
  if bool_decide (cells ws = ∅) then []
  else map (map value)
           (cells_by_row ws 1 1 (Zpos (max_column ws)) (Zpos (max_row ws))).

End Xl.

(** ** The [csv] writer, default dialect *)

Module Csv.
Import Py.

(** A field is enclosed in quotes when it holds a comma, a quote, or one of
    the characters of the line terminator. *)
Definition special (c : ascii) : bool :=
  Ascii.eqb c c_comma || Ascii.eqb c c_quote
  || Ascii.eqb c c_cr || Ascii.eqb c c_lf.

Definition needs_quotes (f : list ascii) : bool := existsb special f.

(** Quote characters inside a quoted field are doubled. *)
Fixpoint escape (f : list ascii) : list ascii :=
  match f with
  | [] => []
  | c :: f' =>
      if Ascii.eqb c c_quote then c_quote :: c_quote :: escape f'
      else c :: escape f'
  end.

Definition write_field (f : list ascii) : list ascii :=
  if needs_quotes f then c_quote :: escape f ++ [c_quote] else f.

Fixpoint join_fields (fs : list (list ascii)) : list ascii :=
  match fs with
  | [] => []
  | [f] => write_field f
  | f :: fs' => write_field f ++ c_comma :: join_fields fs'
  end.

(** [writer.writerow(fields)]: a record of one empty field is written as a
    pair of quotes; every record ends with CR LF. *)
Definition writerow (fs : list (list ascii)) : list ascii :=
  let body := join_fields fs in
  (if Xl.is_nil body && negb (Xl.is_nil fs) then [c_quote; c_quote] else body)
    ++ [c_cr; c_lf].

Definition write_rows (rows : list (list (list ascii))) : list ascii :=
  concat (map writerow rows).

(** *** A reader for the standard dialect

    Records end with CR LF, fields are separated by commas, a field may be
    enclosed in quotes, inside which a doubled quote stands for one quote
    and commas and line breaks are data. *)

Inductive state :=
| RecStart | FieldStart | InField | InQuoted | AfterQuote | AfterCR.

(** [fld] and [rec] are the characters of the current field and the fields
    of the current record, both latest first; [out] holds the finished
    records, latest first. *)
Fixpoint read (st : state) (fld : list ascii) (rec : list (list ascii))
    (out : list (list (list ascii))) (input : list ascii)
  : option (list (list (list ascii))) :=
  match input with
  | [] => match st with RecStart => Some (rev out) | _ => None end
  | c :: rest =>
      match st with
      | RecStart | FieldStart =>
          if Ascii.eqb c c_quote then read InQuoted [] rec out rest
          else if Ascii.eqb c c_comma then read FieldStart [] ([] :: rec) out rest
          else if Ascii.eqb c c_cr then
            match st with
            | RecStart => read AfterCR [] rec out rest
            | _ => read AfterCR [] ([] :: rec) out rest
            end
          else if Ascii.eqb c c_lf then None
          else read InField [c] rec out rest
      | InField =>
          if Ascii.eqb c c_comma then read FieldStart [] (rev fld :: rec) out rest
          else if Ascii.eqb c c_cr then read AfterCR [] (rev fld :: rec) out rest
          else if Ascii.eqb c c_quote || Ascii.eqb c c_lf then None
          else read InField (c :: fld) rec out rest
      | InQuoted =>
          if Ascii.eqb c c_quote then read AfterQuote fld rec out rest
          else read InQuoted (c :: fld) rec out rest
      | AfterQuote =>
          if Ascii.eqb c c_quote then read InQuoted (c :: fld) rec out rest
          else if Ascii.eqb c c_comma then read FieldStart [] (rev fld :: rec) out rest
          else if Ascii.eqb c c_cr then read AfterCR [] (rev fld :: rec) out rest
          else None
      | AfterCR =>
          if Ascii.eqb c c_lf then read RecStart [] [] (rev rec :: out) rest
          else None
      end
  end.

Definition read_csv (text : list ascii) : option (list (list (list ascii))) :=
  read RecStart [] [] [] text.

End Csv.

(** ** The program *)

Module App.
Import Py Xl.

(** *** Computations with a trace

    The dispatcher is run in a monad that raises exceptions and records, in
    order, each read of a tool parameter and each call of
    [load_workbook_from_b64]. *)

Inductive event :=
| EvParam (key : string)
| EvDecode (arg : json).

Definition M (A : Type) : Type := list event * result A.

Definition ret {A} (a : A) : M A := ([], Ok a).

Definition bind {A B} (m : M A) (k : A -> M B) : M B :=
  match m with
  | (t, Ok a) => let '(t', r) := k a in (t ++ t', r)
  | (t, Raise e) => (t, Raise e)
  end.

Definition lift {A} (r : result A) : M A := ([], r).

Notation "'let*' p ':=' m 'in' k" := (bind m (fun p => k))
  (at level 10, p pattern, k at level 200).

(** *** Helper functions *)

Definition is_bad_input (c : exn_class) : bool :=
  match c with
  | ValueError | TypeError | BinasciiError => true
  | _ => false
  end.

(** [header, encoded = b64_string.split(",", 1)] *)
Definition split_data_url (b64_string : json) : result (string * string) :=
  match b64_string with
  | JStr s =>
      match split_once c_comma s with
      | Some p => Ok p
      | None => raise ValueError "not enough values to unpack (expected 2, got 1)"
      end
  | _ => raise AttributeError
           ("'" ++ type_name b64_string ++ "' object has no attribute 'split'")
  end.

(** The [try] block and its two [except] clauses: a [ValueError], a
    [TypeError] or a [binascii.Error] becomes a [ValueError], any other
    exception an [IOError]. *)
Definition load_workbook_from_b64 (lib : Library) (b64_string : json)
  : result Workbook :=
  match rbind (split_data_url b64_string) (fun '(header, encoded) =>
        rbind (b64decode lib encoded) (fun file_bytes =>
        load_workbook lib file_bytes)) with
  | Ok wb => Ok wb
  | Raise e =>
      if is_bad_input (exn_cls e)
      then raise ValueError ("Invalid base64 file format: " ++ exn_msg e)
      else raise OSError ("Failed to parse Excel file: " ++ exn_msg e)
  end.

Definition invalid_range_msg : string :=
  "Invalid range format. Expected 'SheetName!A1:B10'.".

(** ['!' in range_str] for any parsed JSON value. *)
Definition contains_bang (range_str : json) : result bool :=
  match range_str with
  | JStr s => Ok (contains c_bang s)
  | JArr l => Ok (existsb (fun j => match j with
                                    | JStr s => String.eqb s "!"
                                    | _ => false
                                    end) l)
  | JObj kvs => Ok (match assoc_last "!" kvs with Some _ => true | None => false end)
  | _ => raise TypeError
           ("argument of type '" ++ type_name range_str ++ "' is not iterable")
  end.

(** The two elements of the list [parse_range_string] returns, as the
    callers unpack them. *)
Definition parse_range_string (range_str : json) : result (string * string) :=
  rbind (contains_bang range_str) (fun has =>
    if negb has then raise ValueError invalid_range_msg
    else match range_str with
         | JStr s =>
             match split_once c_bang s with
             | Some p => Ok p
             | None => raise ValueError "not enough values to unpack (expected 2, got 1)"
             end
         | _ => raise AttributeError
                  ("'" ++ type_name range_str ++ "' object has no attribute 'split'")
         end).

(** *** Responses *)

Record Response := mkResponse { status : Z; body : json }.

Definition result_body (payload : json) : json := JObj [("result", payload)].
Definition error_body (msg : string) : json := JObj [("error", JStr msg)].

Definition ok_value (v : json) : Response :=
  mkResponse 200 (result_body (JObj [("value", v)])).
Definition ok_file (url : string) : Response :=
  mkResponse 200 (result_body (JObj [("file", JStr url)])).

Definition json_of_value (v : cell_value) : json :=
  match v with
  | VNone => JNull
  | VBool b => JBool b
  | VInt z => JInt z
  | VFloat f => JFloat f
  | VStr s => JStr s
  end.

Definition str_of_bool (b : bool) : string := if b then "True" else "False".

(** [str(x)] of a parsed JSON value. *)
Definition py_str (lib : Library) (j : json) : string :=
  match j with
  | JNull => "None"
  | JBool b => str_of_bool b
  | JInt z => str_of_int z
  | JFloat f => float_repr lib f
  | JStr s => s
  | _ => container_repr lib j
  end.

(** *** The loops of [sum_range] and [avg_range] *)

(** [isinstance(v, (int, float))]; [bool] is a subclass of [int]. *)
Definition is_int_or_float (v : cell_value) : bool :=
  match v with
  | VBool _ | VInt _ | VFloat _ => true
  | VNone | VStr _ => false
  end.

(** A value that passed the test, as an operand of [+]. *)
Definition operand (v : cell_value) : pynum :=
  match v with
  | VBool b => PInt (Z.b2z b)
  | VInt z => PInt z
  | VFloat f => PFloat f
  | _ => PInt 0
  end.

Fixpoint sum_row (total : pynum) (row : list Cell) : result pynum :=
  match row with
  | [] => Ok total
  | cell :: rest =>
      if is_int_or_float (value cell)
      then rbind (py_add total (operand (value cell))) (fun t => sum_row t rest)
      else sum_row total rest
  end.

Fixpoint sum_rows (total : pynum) (rows : list (list Cell)) : result pynum :=
  match rows with
  | [] => Ok total
  | row :: rest => rbind (sum_row total row) (fun t => sum_rows t rest)
  end.

Fixpoint avg_row (acc : pynum * Z) (row : list Cell) : result (pynum * Z) :=
  match row with
  | [] => Ok acc
  | cell :: rest =>
      if is_int_or_float (value cell)
      then rbind (py_add (fst acc) (operand (value cell)))
                 (fun t => avg_row (t, snd acc + 1) rest)
      else avg_row acc rest
  end.

Fixpoint avg_rows (acc : pynum * Z) (rows : list (list Cell))
  : result (pynum * Z) :=
  match rows with
  | [] => Ok acc
  | row :: rest => rbind (avg_row acc row) (fun a => avg_rows a rest)
  end.

Definition not_iterable : exn := Exn TypeError "'Cell' object is not iterable".

(** [for row in sheet[cell_range]: for cell in row: ...]: a cell cannot be
    iterated, neither as the range nor as a row of it. *)
Definition iterate {A} (res : Resolved) (loop : list (list Cell) -> result A)
  : result A :=
  match res with
  | RCell _ => Raise not_iterable
  | RTuple [] => loop []
  | RTuple (_ :: _) => Raise not_iterable
  | RGrid rows => loop rows
  end.

(** [total / count if count > 0 else 0] *)
Definition average (total : pynum) (count : Z) : result pynum :=
  if 0 <? count then py_truediv total count else Ok (PInt 0).

(** [sheet[cell_address].value] *)
Definition cell_value_of (res : Resolved) : result cell_value :=
  match res with
  | RCell c => Ok (value c)
  | _ => raise AttributeError "'tuple' object has no attribute 'value'"
  end.

(** [float(s)] for a string: computed for a string of ASCII characters,
    and taken from the library for any other. *)
Definition float_of_str (lib : Library) (s : string) : option float :=
  if is_ascii s then py_float s else float_of_text lib s.

(** [try: new_value = float(new_value) except ValueError: pass]: the value
    that is then written into the cell. *)
Definition coerce_value (lib : Library) (new_value : json) : result cell_value :=
  match new_value with
  | JStr s =>
      match float_of_str lib s with
      | Some f => Ok (VFloat f)
      | None => Ok (VStr s)
      end
  | JInt z => rbind (float_of_int z) (fun f => Ok (VFloat f))
  | JBool b => rbind (float_of_int (Z.b2z b)) (fun f => Ok (VFloat f))
  | JFloat f => Ok (VFloat f)
  | _ => raise TypeError
           ("float() argument must be a string or a real number, not '"
              ++ type_name new_value ++ "'")
  end.

(** The text [csv.writer] writes for a value: nothing for an empty cell,
    [str(v)] otherwise. *)
Definition csv_text (lib : Library) (v : cell_value) : list ascii :=
  match v with
  | VNone => []
  | _ => chars (py_str lib (json_of_value v))
  end.

Definition xlsx_prefix : string :=
  "data:application/vnd.openxmlformats-officedocument.spreadsheetml.sheet;base64,".
Definition csv_prefix : string := "data:text/csv;base64,".

(** *** [run_tool] *)

(** The outcome of [request.json]: the parsed body, or the HTTP error
    raised for a body that is not JSON. *)
Inductive request :=
| Body (data : json)
| NotJson (msg : string).

Definition request_json (req : request) : result json :=
  match req with
  | Body data => Ok data
  | NotJson msg => raise HTTPException msg
  end.

(** [tool_id == name] *)
Definition is_tool (tool_id : json) (name : string) : bool :=
  match tool_id with
  | JStr s => String.eqb s name
  | _ => false
  end.

(** [params[key]] *)
Definition param (params : json) (key : string) : M json :=
  ([EvParam key], py_index params key).

(** [load_workbook_from_b64(file)] *)
Definition decode (lib : Library) (file : json) : M Workbook :=
  ([EvDecode file], load_workbook_from_b64 lib file).

(** The mutated workbook that [set_cell] saves. *)
Definition write_cell (lib : Library) (workbook : Workbook)
    (sheet_name cell_address : string) (new_value : json) : result Workbook :=
  rbind (wb_getitem workbook sheet_name) (fun sheet =>
  rbind (coerce_value lib new_value) (fun v =>
  rbind (ws_setitem lib sheet cell_address v) (fun sheet' =>
  Ok (update_sheet workbook sheet_name sheet')))).

(** The body of the [try] block. *)
Definition run_tool_try (lib : Library) (req : request) : M Response :=
  let* data := lift (request_json req) in
  let* tool_id := lift (py_get data "tool_id" JNull) in
  let* params := lift (py_get data "parameters" (JObj [])) in
  if is_tool tool_id "sum_range" then
    let* file := param params "file" in
    let* workbook := decode lib file in
    let* range := param params "range" in
    let* (sheet_name, cell_range) := lift (parse_range_string range) in
    let* sheet := lift (wb_getitem workbook sheet_name) in
    let* res := lift (ws_getitem lib sheet cell_range) in
    let* total := lift (iterate res (sum_rows (PInt 0))) in
    ret (ok_value (json_of_num total))
  else if is_tool tool_id "avg_range" then
    let* file := param params "file" in
    let* workbook := decode lib file in
    let* range := param params "range" in
    let* (sheet_name, cell_range) := lift (parse_range_string range) in
    let* sheet := lift (wb_getitem workbook sheet_name) in
    let* res := lift (ws_getitem lib sheet cell_range) in
    let* (total, count) := lift (iterate res (avg_rows (PInt 0, 0))) in
    let* avg := lift (average total count) in
    ret (ok_value (json_of_num avg))
  else if is_tool tool_id "get_cell" then
    let* file := param params "file" in
    let* workbook := decode lib file in
    let* cell := param params "cell" in
    let* (sheet_name, cell_address) := lift (parse_range_string cell) in
    let* sheet := lift (wb_getitem workbook sheet_name) in
    let* res := lift (ws_getitem lib sheet cell_address) in
    let* v := lift (cell_value_of res) in
    ret (ok_value (json_of_value v))
  else if is_tool tool_id "set_cell" then
    let* file := param params "file" in
    let* workbook := decode lib file in
    let* cell := param params "cell" in
    let* (sheet_name, cell_address) := lift (parse_range_string cell) in
    let* new_value := param params "value" in
    let* workbook' := lift (write_cell lib workbook sheet_name cell_address new_value) in
    let* file_bytes := lift (save_workbook lib workbook') in
    ret (ok_file (xlsx_prefix ++ b64encode lib file_bytes))
  else if is_tool tool_id "to_csv" then
    let* file := param params "file" in
    let* workbook := decode lib file in
    match wb_active workbook with
    | None => lift (raise AttributeError
                      "'NoneType' object has no attribute 'iter_rows'")
    | Some sheet =>
        let rows := map (map (csv_text lib)) (iter_rows_values sheet) in
        let csv_content := str (Csv.write_rows rows) in
        ret (ok_file (csv_prefix ++ b64encode lib csv_content))
    end
  else
    ret (mkResponse 404
           (error_body ("Tool with id '" ++ py_str lib tool_id ++ "' not found."))).

(** The [except] clauses. *)
Definition handle (e : exn) : Response :=
  match exn_cls e with
  | KeyError | TypeError =>
      mkResponse 400 (error_body ("Missing or invalid parameter: " ++ exn_msg e))
  | _ => mkResponse 500 (error_body (exn_msg e))
  end.

(** The response together with the trace of parameter reads and decodes. *)
Definition run_tool_traced (lib : Library) (req : request)
  : list event * Response :=
  match run_tool_try lib req with
  | (t, Ok resp) => (t, resp)
  | (t, Raise e) => (t, handle e)
  end.

Definition run_tool (lib : Library) (req : request) : Response :=
  snd (run_tool_traced lib req).

End App.

(** ** Notions used in the statements *)

Import Py Xl Csv App.

(** A request whose body is an object with the given tool identifier and
    parameter mapping. *)
Definition calls (data : json) (tool_id params : json) : Prop :=
  py_get data "tool_id" JNull = Ok tool_id /\
  py_get data "parameters" (JObj []) = Ok params.

(** The parameter [key] is present with value [v]. *)
Definition has_param (params : json) (key : string) (v : json) : Prop :=
  py_index params key = Ok v.

(** The parameter mapping is a dictionary without the key. *)
Definition lacks_param (params : json) (key : string) : Prop :=
  exists kvs, params = JObj kvs /\ assoc_last key kvs = None.

(** The numeric values among the cells, in order. *)
Definition numeric_values (cs : list Cell) : list pynum :=
  map operand (List.filter is_int_or_float (map value cs)).

(** The values added one after the other, starting from [total]. *)
Fixpoint add_all (total : pynum) (xs : list pynum) : result pynum :=
  match xs with
  | [] => Ok total
  | x :: rest => rbind (py_add total x) (fun t => add_all t rest)
  end.

Definition arithmetic_sum (xs : list pynum) : result pynum :=
  add_all (PInt 0) xs.


(** A reference [sheet!address] that [wb] resolves to [res]: the sheet named
    before the first [!] exists and [ws[address]] returns [res]. *)
Definition resolves (lib : Library) (wb : Workbook) (ref : string)
    (res : Resolved) : Prop :=
  exists sheet_name addr ws,
    split_once c_bang ref = Some (sheet_name, addr) /\
    wb_getitem wb sheet_name = Ok ws /\
    ws_getitem lib ws addr = Ok res.

(** The response to a range tool that is asked to iterate a cell. *)
Definition cell_not_iterable : Response :=
  mkResponse 400
    (error_body "Missing or invalid parameter: 'Cell' object is not iterable").

(** The response for the outcome of the [try] block. *)
Definition respond (r : result Response) : Response :=
  match r with
  | Ok resp => resp
  | Raise e => handle e
  end.

(** The tool identifiers the dispatcher knows. *)
Definition registered : list string :=
  ["sum_range"; "avg_range"; "get_cell"; "set_cell"; "to_csv"].

Definition is_registered (tool_id : json) : bool :=
  existsb (is_tool tool_id) registered.

(** The name of the parameter that carries the reference, for the four
    tools that take one. *)
Definition reference_param (tool : string) : option string :=
  if String.eqb tool "sum_range" || String.eqb tool "avg_range" then Some "range"
  else if String.eqb tool "get_cell" || String.eqb tool "set_cell" then Some "cell"
  else None.

(** The three error responses the statements name: a reference without
    [!], a parameter that is missing, a tool that is not registered. *)
Definition invalid_reference : Response :=
  mkResponse 500 (error_body invalid_range_msg).

Definition missing_param (key : string) : Response :=
  mkResponse 400 (error_body ("Missing or invalid parameter: '" ++ key ++ "'")).

Definition tool_not_found (lib : Library) (tool_id : json) : Response :=
  mkResponse 404
    (error_body ("Tool with id '" ++ py_str lib tool_id ++ "' not found.")).

(** The member [key] of a JSON object. *)
Definition member (key : string) (j : json) : option json :=
  match j with
  | JObj kvs => assoc_last key kvs
  | _ => None
  end.

(** A success: status 200 and a body with a [result] and no [error]. *)
Definition is_success (r : Response) : Prop :=
  status r = 200 /\ is_Some (member "result" (body r)) /\
  member "error" (body r) = None.

(** A failure: a status outside 2xx and a body with an [error] string and
    no [result]. *)
Definition is_failure (r : Response) : Prop :=
  (status r = 400 \/ status r = 404 \/ status r = 500) /\
  (exists msg, member "error" (body r) = Some (JStr msg)) /\
  member "result" (body r) = None.

(** Every response the [try] block returns satisfies [P]. *)
Definition returns_only (P : Response -> Prop) (m : M Response) : Prop :=
  forall r, snd m = Ok r -> P r.


(** A reference to one cell of [wb]: the sheet named before the first [!]
    exists and the address is a cell address, column [c] and row [r]. *)
Definition single_cell (wb : Workbook) (ref sheet_name addr : string)
    (ws : Worksheet) (c r : Z) : Prop :=
  split_once c_bang ref = Some (sheet_name, addr) /\
  wb_getitem wb sheet_name = Ok ws /\
  parse_address addr = Some (ACell c r).


(** The sheet after [v] was written at column [c], row [r]. *)
Definition sheet_with (ws : Worksheet) (c r : Z) (v : cell_value) : Worksheet :=
  mkSheet (title ws) (<[(Z.to_pos r, Z.to_pos c) := v]> (cells ws)).

(** The float 5.0. *)
Definition float_five : float := S754_finite false 5629499534213120 (-50).

(** The states of the reader in which a field begins. *)
Definition start_state (st : state) : Prop := st = RecStart \/ st = FieldStart.

(** The number of rows and of columns of a sheet: the largest row and
    column index in use, and no row and no column for a sheet without
    cells, for which [iter_rows] yields nothing. *)
Definition nrows (ws : Worksheet) : nat :=
  if bool_decide (cells ws = ∅) then 0%nat else Pos.to_nat (max_row ws).

Definition ncols (ws : Worksheet) : nat :=
  if bool_decide (cells ws = ∅) then 0%nat else Pos.to_nat (max_column ws).

(** The raw value in row [i] and column [j], both counted from 0. *)
Definition raw_value (ws : Worksheet) (i j : nat) : cell_value :=
  default VNone (cells ws !! (Pos.of_succ_nat i, Pos.of_succ_nat j)).

(** ** The read-only endpoints *)

Module Info.
Import Py App.

(** [healthz] *)
Definition healthz : Response := mkResponse 200 (JObj [("status", JStr "ok")]).

(** The dictionary that describes one parameter of a tool, and the one
    that describes a tool. *)
Definition param_spec (name ty description : string) : json :=
  JObj [("name", JStr name); ("type", JStr ty); ("description", JStr description)].

Definition tool_spec (id name description : string) (parameters : list json)
  : json :=
  JObj [("id", JStr id); ("name", JStr name); ("description", JStr description);
        ("parameters", JArr parameters)].

(** The value of the key [tools] of [server_info]. *)
Definition tools : list json :=
  [tool_spec "sum_range" "Sum Cell Range"
     "Calculates the sum of all numbers in a given cell range (e.g., 'Sheet1!A1:A10')."
     [param_spec "file" "file" "The .xlsx file to process.";
      param_spec "range" "string"
        "The cell range string (e.g., 'Sheet1!A1:A10')."];
   tool_spec "avg_range" "Average Cell Range"
     "Calculates the average of all numbers in a given cell range."
     [param_spec "file" "file" "The .xlsx file to process.";
      param_spec "range" "string"
        "The cell range string (e.g., 'Sheet1!A1:A10')."];
   tool_spec "get_cell" "Get Cell Value"
     "Retrieves the value from a single, specific cell (e.g., 'Sheet1!B2')."
     [param_spec "file" "file" "The .xlsx file to process.";
      param_spec "cell" "string" "The cell address (e.g., 'Sheet1!B2')."];
   tool_spec "set_cell" "Set Cell Value"
     "Writes a new value to a specific cell and returns the modified Excel file."
     [param_spec "file" "file" "The .xlsx file to process.";
      param_spec "cell" "string"
        "The cell address to modify (e.g., 'Sheet1!C3').";
      param_spec "value" "string" "The new value to write into the cell."];
   tool_spec "to_csv" "Convert to CSV"
     "Converts the first worksheet of an Excel file into CSV format."
     [param_spec "file" "file" "The .xlsx file to convert."]].

Definition server_info : json :=
  JObj
    [("name", JStr "MS Excel Tools");
     ("description",
      JStr "A set of tools to perform basic read and write operations on Microsoft Excel (.xlsx) files.");
     ("tools", JArr tools)].

(** [get_info] *)
Definition get_info : Response := mkResponse 200 server_info.

End Info.

Import Info.

(** *** Reading the descriptor *)

(** The string and the array behind a key of a JSON object. *)
Definition str_member (key : string) (j : json) : option string :=
  match member key j with
  | Some (JStr s) => Some s
  | _ => None
  end.

Definition arr_member (key : string) (j : json) : list json :=
  match member key j with
  | Some (JArr l) => l
  | _ => []
  end.

Definition has_id (tool : string) (descriptor : json) : bool :=
  match str_member "id" descriptor with
  | Some s => String.eqb s tool
  | None => false
  end.

(** The identifiers of the tools [get_info] lists, and the names of the
    parameters it declares for a tool, both in the order of the listing. *)
Definition declared_tools : list string :=
  omap (str_member "id") (arr_member "tools" (body get_info)).

Definition declared_parameters (tool : string) : option (list string) :=
  match find (has_id tool) (arr_member "tools" (body get_info)) with
  | Some d => Some (omap (str_member "name") (arr_member "parameters" d))
  | None => None
  end.

(** The tool identifier is a string that [get_info] lists. *)
Definition is_declared (tool_id : json) : bool :=
  match tool_id with
  | JStr s => existsb (String.eqb s) declared_tools
  | _ => false
  end.

(** *** Reading a trace *)

(** The parameters read and the values handed to
    [load_workbook_from_b64], in order. *)
Definition params_read (t : list event) : list string :=
  omap (fun e => match e with EvParam k => Some k | EvDecode _ => None end) t.

Definition files_decoded (t : list event) : list json :=
  omap (fun e => match e with EvDecode a => Some a | EvParam _ => None end) t.

(** *** Further notions *)

Definition is_str (j : json) : bool :=
  match j with JStr _ => true | _ => false end.

Definition is_obj (j : json) : bool :=
  match j with JObj _ => true | _ => false end.

(** Arrays and objects, the values on which [in] is defined but [split]
    is not. *)
Definition is_container (j : json) : bool :=
  match j with JArr _ | JObj _ => true | _ => false end.

(** An error response with the given status whose message begins with
    [start]. *)
Definition fails_with (st : Z) (start : string) (r : Response) : Prop :=
  exists msg, r = mkResponse st (error_body (start ++ msg)).

Definition bad_parameter : string := "Missing or invalid parameter: ".
Definition bad_encoding : string := "Invalid base64 file format: ".
Definition bad_document : string := "Failed to parse Excel file: ".

(** No sheet of the workbook has the title. *)
Definition no_sheet (wb : Workbook) (name : string) : Prop :=
  Forall (fun ws => title ws <> name) (sheets wb).

(** The value stored at a position of a sheet, [VNone] when there is
    none. *)
Definition stored (ws : Worksheet) (r c : positive) : cell_value :=
  default VNone (cells ws !! (r, c)).

Definition is_float (n : pynum) : bool :=
  match n with PFloat _ => true | PInt _ => false end.

(** The float nearest to a natural number written in decimal digits. *)
Definition float_of_digits (ds : list ascii) : float :=
  float_of_decimal false (digits_val ds) 0.

(** What [ws[key]] returned cannot be iterated row by row: it is a cell,
    or a tuple that begins with a cell. *)
Definition not_rows (res : Resolved) : bool :=
  match res with
  | RCell _ | RTuple (_ :: _) => true
  | RTuple [] | RGrid _ => false
  end.

Definition is_cell (res : Resolved) : bool :=
  match res with RCell _ => true | _ => false end.

(** The response to a cell tool that is given a tuple. *)
Definition tuple_has_no_value : Response :=
  mkResponse 500 (error_body "'tuple' object has no attribute 'value'").

(** The values [float] accepts or reads: text, numbers and booleans. *)
Definition is_text_or_number (v : json) : bool :=
  match v with
  | JStr _ | JInt _ | JFloat _ | JBool _ => true
  | JNull | JArr _ | JObj _ => false
  end.

(** The response to [set_cell] when [float] refuses the value. *)
Definition float_needs_a_number (v : json) : Response :=
  mkResponse 400
    (error_body (bad_parameter
       ++ "float() argument must be a string or a real number, not '"
       ++ type_name v ++ "'")).

(** The response to [to_csv] on a workbook without an active sheet. *)
Definition no_active_sheet : Response :=
  mkResponse 500 (error_body "'NoneType' object has no attribute 'iter_rows'").

(** The body of the request is a JSON object. *)
Definition well_formed (req : request) : bool :=
  match req with
  | Body data => is_obj data
  | NotJson _ => false
  end.

(** The trace of [m] is a prefix of [expected], and all of it when [m]
    returns. *)
Definition traced_by {A} (expected : list event) (m : M A) : Prop :=
  fst m `prefix_of` expected /\ (forall a, snd m = Ok a -> fst m = expected).

(** The trace [t] of a request that was answered with [r] reads the
    parameters [ps] in order and decodes the [file] parameter, once. *)
Definition read_in_order (lib : Library) (params : json) (ps : list string)
    (t : list event) (r : Response) : Prop :=
  params_read t `prefix_of` ps /\
  (is_success r ->
     params_read t = ps /\
     exists file wb,
       has_param params "file" file /\
       load_workbook_from_b64 lib file = Ok wb /\
       files_decoded t = [file]) /\
  (forall file, In file (files_decoded t) ->
     has_param params "file" file /\ files_decoded t = [file]).

Definition holds_float (c : Cell) : bool :=
  match value c with VFloat _ => true | _ => false end.

Definition is_json_float (j : json) : bool :=
  match j with JFloat _ => true | _ => false end.




(** ** A worked example

    The workbook of the example in the description of the tools: one sheet
    [Sheet1] with A1 = 2, A2 = 4 and A3 = "x"; and a stand-in for the
    library that reads a workbook from a table of named files. *)

Module Demo.
Import Py Xl App.

Definition sheet1 : Worksheet :=
  mkSheet "Sheet1"
    (<[(1%positive, 1%positive) := VInt 2]>
     (<[(2%positive, 1%positive) := VInt 4]>
      (<[(3%positive, 1%positive) := VStr "x"]> ∅))).

Definition book : Workbook := mkBook [sheet1] 0.

Fixpoint lookup_file (name : string) (files : list (string * Workbook))
  : result Workbook :=
  match files with
  | [] => raise OtherError "File is not a zip file"
  | (n, wb) :: rest => if String.eqb n name then Ok wb else lookup_file name rest
  end.

(** The codec is the identity, the reader looks the payload up in [files],
    the writer always produces the payload [saved]. *)
Definition library (files : list (string * Workbook)) : Library :=
  mkLibrary (fun s => Ok s) (fun s => s)
            (fun s => lookup_file s files) (fun _ => Ok "saved")
            (fun _ key => raise ValueError (key ++ " is not a valid coordinate or range"))
            (fun _ => "?") (fun _ => "?") (fun _ => None).

(** A second workbook, with a sheet [Flags] that holds A1 = TRUE and
    A2 = 4. *)
Definition flags : Worksheet :=
  mkSheet "Flags"
    (<[(1%positive, 1%positive) := VBool true]>
     (<[(2%positive, 1%positive) := VInt 4]> ∅)).

Definition flag_book : Workbook := mkBook [flags] 0.

Definition lib : Library := library [("book", book); ("flags", flag_book)].

(** Requests on the example, and what is expected of them. *)

Definition request_data (tool : string) (params : list (string * json)) : json :=
  JObj [("tool_id", JStr tool); ("parameters", JObj params)].

Definition call (tool : string) (params : list (string * json)) : request :=
  Body (request_data tool params).

Definition file_param : string * json :=
  ("file", JStr "data:application/octet-stream;base64,book").

Definition range_a : list (string * json) :=
  [file_param; ("range", JStr "Sheet1!A1:A3")].

Definition write_b2 : list (string * json) :=
  [file_param; ("cell", JStr "Sheet1!B2"); ("value", JStr "5")].

Definition col_a : list (list Cell) :=
  [[mkCell 1 1 (VInt 2)]; [mkCell 2 1 (VInt 4)]; [mkCell 3 1 (VStr "x")]].

Definition float_three : float := S754_finite false 6755399441055744 (-51).

(** The workbook after 5 was written into B2. *)
Definition written : Workbook :=
  update_sheet book "Sheet1" (sheet_with sheet1 2 2 (VFloat float_five)).









Definition c2 : list ascii := chars "2".
Definition c4 : list ascii := chars "4".
Definition cx : list ascii := chars "x".

Definition bad_file : string * json := ("file", JStr "not a data url").

Definition invalid_encoding : Response :=
  mkResponse 500
    (error_body
       "Invalid base64 file format: not enough values to unpack (expected 2, got 1)").

(** A workbook whose only sheet has a [!] in its title, a workbook with
    two sheets, and a library that finds them. *)
Definition quarters : Worksheet :=
  mkSheet "Q1!Q2" (<[(1%positive, 1%positive) := VInt 1]> ∅).

Definition quarter_book : Workbook := mkBook [quarters] 0.

Definition two_sheets : Workbook := mkBook [sheet1; flags] 0.

Definition shelf : Library :=
  library [("book", book); ("quarters", quarter_book); ("two", two_sheets)].

Definition quarter_file : string * json :=
  ("file", JStr "data:application/octet-stream;base64,quarters").

Definition two_file : string * json :=
  ("file", JStr "data:application/octet-stream;base64,two").

(** The cells of column A of the example sheet, as one tuple. *)
Definition col_a_flat : list Cell :=
  [mkCell 1 1 (VInt 2); mkCell 2 1 (VInt 4); mkCell 3 1 (VStr "x")].

(** The example workbook after the text [n] was written into C1. *)
Definition noted : Workbook :=
  update_sheet book "Sheet1" (sheet_with sheet1 3 1 (VStr "n")).

(** The header of the data URL of a spreadsheet, without its comma. *)
Definition xlsx_header : string :=
  "data:application/vnd.openxmlformats-officedocument.spreadsheetml.sheet;base64".





Definition not_enough_values : exn :=
  Exn ValueError
    "Invalid base64 file format: not enough values to unpack (expected 2, got 1)".

End Demo.

(** ** Properties *)

(** *** The loops and the sum they compute *)

Lemma add_all_app total xs ys :
  add_all total (xs ++ ys) = rbind (add_all total xs) (fun t => add_all t ys).
Proof.
  revert total. induction xs as [|x xs IH]; intros total; simpl; [reflexivity|].
  destruct (py_add total x); simpl; [apply IH | reflexivity].
Qed.

Lemma numeric_values_app cs ds :
  numeric_values (cs ++ ds) = numeric_values cs ++ numeric_values ds.
Proof. unfold numeric_values. by rewrite map_app, List.filter_app, map_app. Qed.

Lemma sum_row_add_all total row :
  sum_row total row = add_all total (numeric_values row).
Proof.
  revert total. induction row as [|c row IH]; intros total; [reflexivity|].
  unfold numeric_values in *. cbn [sum_row map List.filter].
  destruct (is_int_or_float (value c)); [|apply IH]. cbn.
  destruct (py_add total (operand (value c))); cbn; [apply IH | reflexivity].
Qed.

Lemma sum_rows_add_all total rows :
  sum_rows total rows = add_all total (numeric_values (concat rows)).
Proof.
  revert total. induction rows as [|r rows IH]; intros total; [reflexivity|].
  cbn [sum_rows concat]. rewrite numeric_values_app, add_all_app, sum_row_add_all.
  destruct (add_all total (numeric_values r)); cbn; [apply IH | reflexivity].
Qed.


(** *** References *)

Lemma split_once_contains c s p :
  split_once c s = Some p -> contains c s = true.
Proof.
  revert p. induction s as [|a s IH]; intros p; simpl; [discriminate|].
  destruct (Ascii.eqb a c); [reflexivity|].
  destruct (split_once c s) as [[h t]|]; [|discriminate].
  intros _. by eapply IH.
Qed.

Lemma parse_range_string_split ref p :
  split_once c_bang ref = Some p -> parse_range_string (JStr ref) = Ok p.
Proof.
  intros H. unfold parse_range_string. cbn.
  rewrite (split_once_contains _ _ _ H). cbn. by rewrite H.
Qed.

(** *** Running the dispatcher step by step *)

Lemma run_tool_respond lib req :
  run_tool lib req = respond (snd (run_tool_try lib req)).
Proof.
  unfold run_tool, run_tool_traced.
  by destruct (run_tool_try lib req) as [t [r|e]].
Qed.

Lemma snd_bind {A B} (m : M A) (k : A -> M B) :
  snd (bind m k) = rbind (snd m) (fun a => snd (k a)).
Proof. destruct m as [t [a|e]]; cbn; [by destruct (k a)|done]. Qed.

Lemma fst_bind {A B} (m : M A) (k : A -> M B) :
  fst (bind m k) =
  fst m ++ match snd m with Ok a => fst (k a) | Raise _ => [] end.
Proof.
  destruct m as [t [a|e]]; cbn; [by destruct (k a)|by rewrite app_nil_r].
Qed.

Lemma run_traced_split lib req :
  run_tool_traced lib req =
  (fst (run_tool_try lib req), respond (snd (run_tool_try lib req))).
Proof.
  unfold run_tool_traced. by destruct (run_tool_try lib req) as [t [r|e]].
Qed.

(** The dispatcher reads two members of the body and nothing else of it. *)
Lemma run_tool_reads_two_members lib data data' tool_id params :
  calls data tool_id params -> calls data' tool_id params ->
  run_tool_traced lib (Body data) = run_tool_traced lib (Body data').
Proof.
  intros [H1 H2] [H3 H4]. unfold run_tool_traced, run_tool_try.
  cbn [lift request_json bind]. by rewrite H1, H2, H3, H4.
Qed.

#[local] Arguments parse_range_string : simpl never.
#[local] Arguments load_workbook_from_b64 : simpl never.
#[local] Arguments wb_getitem : simpl never.
#[local] Arguments ws_getitem : simpl never.
#[local] Arguments wb_active : simpl never.
#[local] Arguments py_get : simpl never.
#[local] Arguments py_index : simpl never.
#[local] Arguments iterate : simpl never.
#[local] Arguments write_cell : simpl never.
#[local] Arguments average : simpl never.
#[local] Arguments cell_value_of : simpl never.
#[local] Arguments coerce_value : simpl never.
#[local] Arguments py_str : simpl never.
#[local] Arguments iter_rows_values : simpl never.
#[local] Arguments String.append : simpl never.

Ltac run_init :=
  repeat match goal with
  | H : calls _ _ _ |- _ => destruct H as [? ?]
  | H : has_param _ _ _ |- _ => unfold has_param in H
  | H : resolves _ _ _ _ |- _ =>
      destruct H as (? & ? & ? & ?%parse_range_string_split & ? & ?)
  end;
  rewrite ?run_tool_respond, ?run_traced_split; unfold run_tool_try.

Ltac run_step :=
  rewrite ?snd_bind, ?fst_bind;
  cbn [fst snd lift param decode ret request_json rbind is_tool
       String.eqb Ascii.eqb Bool.eqb];
  try match goal with
  | H : ?x = _ |- context [?x] => rewrite H
  end.

Ltac run := run_init; repeat progress run_step.

Lemma avg_row_add_all total n row :
  avg_row (total, n) row =
  rbind (add_all total (numeric_values row))
        (fun t => Ok (t, n + Z.of_nat (length (numeric_values row)))).
Proof.
  revert total n. induction row as [|c row IH]; intros total n.
  { cbn. by rewrite Z.add_0_r. }
  unfold numeric_values in *. cbn [avg_row map List.filter fst snd].
  destruct (is_int_or_float (value c)); [|apply IH]. cbn [map add_all].
  destruct (py_add total (operand (value c))) as [t|e]; cbn [rbind]; [|done].
  rewrite IH. cbn [length].
  destruct (add_all t _); cbn [rbind]; [|done]. do 2 f_equal. lia.
Qed.

Lemma avg_rows_add_all total n rows :
  avg_rows (total, n) rows =
  rbind (add_all total (numeric_values (concat rows)))
        (fun t => Ok (t, n + Z.of_nat (length (numeric_values (concat rows))))).
Proof.
  revert total n. induction rows as [|r rows IH]; intros total n.
  { cbn. by rewrite Z.add_0_r. }
  cbn [avg_rows concat].
  rewrite numeric_values_app, add_all_app, avg_row_add_all, length_app.
  destruct (add_all total (numeric_values r)) as [t|e]; cbn [rbind]; [|done].
  rewrite IH. destruct (add_all t _); cbn [rbind]; [|done]. do 2 f_equal. lia.
Qed.

Lemma numeric_values_cons c cs :
  numeric_values (c :: cs) =
  (if is_int_or_float (value c) then [operand (value c)] else [])
    ++ numeric_values cs.
Proof. unfold numeric_values. cbn. by destruct (is_int_or_float (value c)). Qed.


(** *** The range tools

    The requests of this section carry a [file] that decodes to [wb] and a
    [range] that is the string [ref]. *)

Section RangeRequest.

Context (lib : Library) (data params file : json) (wb : Workbook) (ref : string).
Hypothesis Hfile : has_param params "file" file.
Hypothesis Hbook : load_workbook_from_b64 lib file = Ok wb.
Hypothesis Hrange : has_param params "range" (JStr ref).

(** What [sum_range] answers once the reference has been resolved. *)
Lemma run_sum_range res :
  calls data (JStr "sum_range") params ->
  resolves lib wb ref res ->
  run_tool lib (Body data) =
    respond (rbind (iterate res (sum_rows (PInt 0)))
                   (fun total => Ok (ok_value (json_of_num total)))).
Proof. intros. by run. Qed.

(** What [avg_range] answers once the reference has been resolved. *)
Lemma run_avg_range res :
  calls data (JStr "avg_range") params ->
  resolves lib wb ref res ->
  run_tool lib (Body data) =
    respond (rbind (iterate res (avg_rows (PInt 0, 0))) (fun a =>
             rbind (average (fst a) (snd a)) (fun avg =>
             Ok (ok_value (json_of_num avg))))).
Proof.
  intros. run. destruct (iterate res _) as [[t n]|e]; cbn; [|done].
  repeat progress run_step. by destruct (average t n).
Qed.


(** Claim C2, as amended.  For a request to [avg_range] whose file decodes
    and whose reference resolves to rows of cells, the response carries the
    sum of the numeric values divided by their number, whenever the
    additions and the division succeed, and 0 when there is no numeric
    cell. *)
Theorem avg_range_result rows
  (Hcall : calls data (JStr "avg_range") params)
  (Hres : resolves lib wb ref (RGrid rows)) :
  let xs := numeric_values (concat rows) in
  (forall total avg,
     arithmetic_sum xs = Ok total -> xs <> [] ->
     py_truediv total (Z.of_nat (length xs)) = Ok avg ->
     run_tool lib (Body data) = ok_value (json_of_num avg)) /\
  (xs = [] -> run_tool lib (Body data) = ok_value (JInt 0)).
Proof.
  rewrite (run_avg_range _ Hcall Hres).
  unfold iterate. rewrite avg_rows_add_all. split.
  - intros total avg Htot Hne Havg. unfold arithmetic_sum in Htot.
    rewrite Htot. cbn. unfold average.
    destruct (numeric_values (concat rows)) as [|x xs]; [done|].
    replace (0 <? 0 + Z.of_nat (length (x :: xs))) with true
      by (symmetry; apply Z.ltb_lt; cbn [length]; lia).
    rewrite Z.add_0_l, Havg. done.
  - intros Hnil. by rewrite Hnil.
Qed.


End RangeRequest.

(** *** The shape of a response *)

Lemma returns_only_bind {A} P (m : M A) (k : A -> M Response) :
  (forall a, returns_only P (k a)) -> returns_only P (bind m k).
Proof.
  intros H r. rewrite snd_bind. destruct (snd m) as [a|e]; cbn; [apply H|done].
Qed.

Lemma returns_only_ret (P : Response -> Prop) r : P r -> returns_only P (ret r).
Proof. by intros H r' [= <-]. Qed.

Lemma returns_only_raise P c msg : returns_only P (lift (raise c msg)).
Proof. by intros r. Qed.

Lemma ok_value_success v : is_success (ok_value v).
Proof. by repeat split; cbn; eauto. Qed.

Lemma ok_file_success url : is_success (ok_file url).
Proof. by repeat split; cbn; eauto. Qed.

Lemma tool_not_found_failure lib tool_id : is_failure (tool_not_found lib tool_id).
Proof. repeat split; cbn; eauto. Qed.

Lemma handle_failure e : is_failure (handle e).
Proof. unfold handle. destruct (exn_cls e); repeat split; cbn; eauto. Qed.

Lemma success_not_failure r : is_success r -> ~ is_failure r.
Proof. intros (Hs & _ & _) ([H|[H|H]] & _ & _); rewrite Hs in H; discriminate. Qed.

Lemma run_tool_try_returns lib req :
  returns_only (fun r => is_success r \/ is_failure r) (run_tool_try lib req).
Proof.
  unfold run_tool_try.
  repeat first
    [ apply returns_only_bind; intros ?
    | apply returns_only_raise
    | apply returns_only_ret;
      first [ left; apply ok_value_success
            | left; apply ok_file_success
            | right; apply tool_not_found_failure ]
    | match goal with
      | |- returns_only _ (if ?b then _ else _) => destruct b
      | |- returns_only _ (let '(_, _) := ?p in _) => destruct p
      | |- returns_only _ (match wb_active ?w with _ => _ end) =>
          destruct (wb_active w)
      end ].
Qed.

(** Claim C7.  Every request gets exactly one of the two kinds of response:
    a success with status 200 and a [result], or a failure with status 400,
    404 or 500 and an [error] string; no exception leaves the handler. *)
Theorem run_tool_total lib req :
  (is_success (run_tool lib req) \/ is_failure (run_tool lib req)) /\
  ~ (is_success (run_tool lib req) /\ is_failure (run_tool lib req)).
Proof.
  split.
  - rewrite run_tool_respond.
    destruct (snd (run_tool_try lib req)) as [r|e] eqn:E; cbn.
    + by apply (run_tool_try_returns lib req).
    + right. apply handle_failure.
  - intros [Hs Hf]. by apply (success_not_failure _ Hs).
Qed.

(** *** Tools and their parameters *)

Lemma reference_param_cases tool key :
  reference_param tool = Some key ->
  (tool = "sum_range" /\ key = "range") \/ (tool = "avg_range" /\ key = "range") \/
  (tool = "get_cell" /\ key = "cell") \/ (tool = "set_cell" /\ key = "cell").
Proof.
  unfold reference_param.
  destruct (String.eqb_spec tool "sum_range"); [intros [= <-]; auto|].
  destruct (String.eqb_spec tool "avg_range"); [intros [= <-]; auto|].
  destruct (String.eqb_spec tool "get_cell"); [intros [= <-]; auto 6|].
  destruct (String.eqb_spec tool "set_cell"); [intros [= <-]; auto 6|].
  discriminate.
Qed.

Lemma contains_split_once c s :
  contains c s = true ->
  exists h t, split_once c s = Some (h, t) /\
              s = (h ++ String c t)%string /\ contains c h = false.
Proof.
  induction s as [|a s IH]; cbn; [discriminate|].
  destruct (Ascii.eqb_spec a c) as [->|Hne].
  - intros _. by exists "", s.
  - intros (h & t & -> & -> & Hh)%IH. exists (String a h), t. cbn.
    destruct (Ascii.eqb_spec a c); [done|]. by rewrite Hh.
Qed.

Lemma parse_range_string_no_bang ref :
  contains c_bang ref = false ->
  parse_range_string (JStr ref) = raise ValueError invalid_range_msg.
Proof. intros H. unfold parse_range_string. cbn. by rewrite H. Qed.

Lemma invalid_reference_failure : is_failure invalid_reference.
Proof. repeat split; cbn; eauto. Qed.

(** Claim C5, as amended.  For each of the four tools that take a range or
    cell parameter, a request whose reference has no [!] is answered with
    an error and a status outside 2xx, and when its file decodes the error
    is the 500 response that carries the message of [parse_range_string];
    a reference that has a [!] is split into the sheet name and the address
    at the first [!] only. *)
Theorem reference_needs_bang lib data tool key params ref
  (Htool : reference_param tool = Some key)
  (Hcall : calls data (JStr tool) params)
  (Href : has_param params key (JStr ref)) :
  (contains c_bang ref = false ->
     is_failure (run_tool lib (Body data)) /\
     forall file wb,
       has_param params "file" file ->
       load_workbook_from_b64 lib file = Ok wb ->
       run_tool lib (Body data) = invalid_reference) /\
  (contains c_bang ref = true ->
     exists sheet_name addr,
       parse_range_string (JStr ref) = Ok (sheet_name, addr) /\
       ref = (sheet_name ++ String c_bang addr)%string /\
       contains c_bang sheet_name = false).
Proof.
  split.
  - intros Hno%parse_range_string_no_bang.
    assert (Hdecoded : forall file wb,
              has_param params "file" file ->
              load_workbook_from_b64 lib file = Ok wb ->
              run_tool lib (Body data) = invalid_reference).
    { intros file wb Hfile Hbook.
      destruct (reference_param_cases _ _ Htool)
        as [[-> ->]|[[-> ->]|[[-> ->]|[-> ->]]]]; by run. }
    split; [|exact Hdecoded].
    destruct (py_index params "file") as [file|e] eqn:Hfile.
    + destruct (load_workbook_from_b64 lib file) as [wb|e] eqn:Hbook.
      * rewrite (Hdecoded _ _ Hfile Hbook). apply invalid_reference_failure.
      * destruct (reference_param_cases _ _ Htool)
          as [[-> ->]|[[-> ->]|[[-> ->]|[-> ->]]]]; run; apply handle_failure.
    + destruct (reference_param_cases _ _ Htool)
        as [[-> ->]|[[-> ->]|[[-> ->]|[-> ->]]]]; run; apply handle_failure.
  - intros (h & t & Hsplit & -> & Hh)%contains_split_once.
    exists h, t. split; [|done]. by apply parse_range_string_split.
Qed.

Lemma lacks_param_index params key :
  lacks_param params key ->
  py_index params key = raise KeyError ("'" ++ key ++ "'")%string.
Proof. intros (kvs & -> & H). unfold py_index. by rewrite H. Qed.

(** Claim C6, as amended.  A request to a registered tool without the
    [file] parameter is answered with the 400 error and nothing is decoded.
    A request with a file that decodes and without the reference parameter
    of its tool is answered with the 400 error after the file has been
    decoded.  A request to [set_cell] with a file that decodes and a [cell]
    that is a string with a [!], and without the [value], is answered with
    the 400 error after the file has been decoded and the [cell] read.  A
    request whose tool identifier is not registered is answered with the
    404 error before any parameter is read and before anything is
    decoded. *)
Theorem missing_parameter_and_unknown_tool lib data tool_id params :
  calls data tool_id params ->
  (forall tool, tool_id = JStr tool -> In tool registered ->
     lacks_param params "file" ->
     run_tool_traced lib (Body data) = ([EvParam "file"], missing_param "file")) /\
  (forall tool key file wb, tool_id = JStr tool ->
     reference_param tool = Some key ->
     has_param params "file" file ->
     load_workbook_from_b64 lib file = Ok wb ->
     lacks_param params key ->
     run_tool_traced lib (Body data) =
       ([EvParam "file"; EvDecode file; EvParam key], missing_param key)) /\
  (forall file wb ref sheet_name addr, tool_id = JStr "set_cell" ->
     has_param params "file" file ->
     load_workbook_from_b64 lib file = Ok wb ->
     has_param params "cell" (JStr ref) ->
     split_once c_bang ref = Some (sheet_name, addr) ->
     lacks_param params "value" ->
     run_tool_traced lib (Body data) =
       ([EvParam "file"; EvDecode file; EvParam "cell"; EvParam "value"],
        missing_param "value")) /\
  (is_registered tool_id = false ->
     run_tool_traced lib (Body data) = ([], tool_not_found lib tool_id)).
Proof.
  intros Hcall. split; [|split; [|split]].
  - intros tool -> Hin Hfile%lacks_param_index.
    cbn in Hin. destruct Hin as [<-|[<-|[<-|[<-|[<-|[]]]]]]; by run.
  - intros tool key file wb -> Htool Hfile Hbook Hkey%lacks_param_index.
    destruct (reference_param_cases _ _ Htool)
      as [[-> ->]|[[-> ->]|[[-> ->]|[-> ->]]]]; by run.
  - intros file wb ref sheet_name addr -> Hfile Hbook Hcell
      Hsplit%parse_range_string_split Hvalue%lacks_param_index. by run.
  - unfold is_registered. cbn [existsb registered].
    intros H. repeat apply orb_false_elim in H as [? H]. by run.
Qed.

(** *** Writing a cell and reading it back *)

Lemma find_title_eq name l ws :
  find (fun ws => String.eqb (title ws) name) l = Some ws -> title ws = name.
Proof. intros [_ H]%find_some. by apply String.eqb_eq. Qed.

Lemma find_replace_sheet name ws' l ws :
  find (fun ws => String.eqb (title ws) name) l = Some ws ->
  title ws' = name ->
  find (fun ws => String.eqb (title ws) name) (replace_sheet name ws' l) = Some ws'.
Proof.
  intros Hfind Ht. induction l as [|w l IH]; [discriminate|].
  cbn in *. destruct (String.eqb (title w) name) eqn:E.
  - cbn. by rewrite Ht, String.eqb_refl.
  - cbn. rewrite E. by apply IH.
Qed.

Lemma wb_getitem_sheets wb wb2 name :
  sheets wb2 = sheets wb -> wb_getitem wb2 name = wb_getitem wb name.
Proof. unfold wb_getitem. by intros ->. Qed.

Lemma wb_getitem_update wb name ws ws' :
  wb_getitem wb name = Ok ws -> title ws' = title ws ->
  wb_getitem (update_sheet wb name ws') name = Ok ws'.
Proof.
  unfold wb_getitem, update_sheet. cbn.
  destruct (find _ (sheets wb)) as [w|] eqn:E; [|discriminate].
  intros [= ->] Ht.
  by rewrite (find_replace_sheet _ ws' _ _ E)
    by (rewrite Ht; by eapply find_title_eq).
Qed.

Lemma ws_getitem_cell lib ws addr c r :
  parse_address addr = Some (ACell c r) ->
  ws_getitem lib ws addr = Ok (RCell (cell_at ws (Z.to_pos r) (Z.to_pos c))).
Proof. unfold ws_getitem. by intros ->. Qed.

(** An assignment to a cell address stores what the setter makes of the
    value, or raises what the setter raises. *)
Lemma ws_setitem_cell lib ws addr c r v :
  parse_address addr = Some (ACell c r) ->
  ws_setitem lib ws addr v =
    rbind (bind_value v) (fun v' => Ok (sheet_with ws c r v')).
Proof. intros H. unfold ws_setitem. by rewrite (ws_getitem_cell _ _ _ _ _ H). Qed.

Lemma read_sheet_with lib ws addr c r v :
  parse_address addr = Some (ACell c r) ->
  rbind (ws_getitem lib (sheet_with ws c r v) addr) cell_value_of = Ok v.
Proof.
  intros H. rewrite (ws_getitem_cell _ _ _ _ _ H). cbn.
  unfold cell_value_of, cell_at, sheet_with. cbn. by rewrite lookup_insert_eq.
Qed.







(** [get_cell] on any file that decodes to [wb]. *)
Lemma run_get_cell lib data params file wb ref sheet_name addr ws :
  calls data (JStr "get_cell") params ->
  has_param params "file" file ->
  load_workbook_from_b64 lib file = Ok wb ->
  has_param params "cell" (JStr ref) ->
  split_once c_bang ref = Some (sheet_name, addr) ->
  wb_getitem wb sheet_name = Ok ws ->
  run_tool lib (Body data) =
    respond (rbind (rbind (ws_getitem lib ws addr) cell_value_of)
                   (fun v => Ok (ok_value (json_of_value v)))).
Proof.
  intros Hcall Hfile Hbook Hcell Hsplit%parse_range_string_split Hws. run.
  destruct (ws_getitem lib ws addr) as [res|e]; cbn; [|done].
  repeat progress run_step. by destruct (cell_value_of res).
Qed.






(** *** Reading back what the writer wrote *)

Lemma special_false c :
  special c = false ->
  Ascii.eqb c c_comma = false /\ Ascii.eqb c c_quote = false /\
  Ascii.eqb c c_cr = false /\ Ascii.eqb c c_lf = false.
Proof.
  unfold special. intros H.
  repeat (apply orb_false_elim in H as [H ?]). by repeat split.
Qed.

Lemma read_plain_in_field f fld rec out rest :
  needs_quotes f = false ->
  read InField fld rec out (f ++ rest) = read InField (rev f ++ fld) rec out rest.
Proof.
  revert fld. induction f as [|c f IH]; intros fld H; [done|].
  cbn in H. apply orb_false_elim in H as [Hc Hf].
  destruct (special_false _ Hc) as (H1 & H2 & H3 & H4).
  cbn [app read]. rewrite H1, H2, H3, H4. cbn [orb].
  rewrite IH by done. cbn [rev]. by rewrite <- app_assoc.
Qed.

Lemma read_plain_start st c f rec out rest :
  start_state st -> needs_quotes (c :: f) = false ->
  read st [] rec out ((c :: f) ++ rest) = read InField (rev (c :: f)) rec out rest.
Proof.
  intros Hst H. cbn in H. apply orb_false_elim in H as [Hc Hf].
  destruct (special_false _ Hc) as (H1 & H2 & H3 & H4).
  destruct Hst as [-> | ->]; cbn [app read]; rewrite H1, H2, H3, H4;
    by rewrite read_plain_in_field.
Qed.

Lemma read_escaped f fld rec out rest :
  read InQuoted fld rec out (escape f ++ c_quote :: rest) =
  read AfterQuote (rev f ++ fld) rec out rest.
Proof.
  revert fld. induction f as [|c f IH]; intros fld.
  - cbn [escape app read]. by rewrite Ascii.eqb_refl.
  - cbn [escape]. destruct (Ascii.eqb c c_quote) eqn:E.
    + apply Ascii.eqb_eq in E as ->. cbn [app read].
      rewrite !Ascii.eqb_refl, IH. cbn [rev]. by rewrite <- app_assoc.
    + cbn [app read]. rewrite E, IH. cbn [rev]. by rewrite <- app_assoc.
Qed.

Lemma read_quoted st f rec out rest :
  start_state st ->
  read st [] rec out ((c_quote :: escape f ++ [c_quote]) ++ rest) =
  read AfterQuote (rev f) rec out rest.
Proof.
  intros Hst. cbn [app]. rewrite <- app_assoc. cbn [app].
  destruct Hst as [-> | ->]; cbn [read]; rewrite Ascii.eqb_refl, read_escaped;
    by rewrite app_nil_r.
Qed.

(** A written field followed by a comma. *)
Lemma read_field_comma st f rec out rest :
  start_state st ->
  read st [] rec out (write_field f ++ c_comma :: rest) =
  read FieldStart [] (f :: rec) out rest.
Proof.
  intros Hst. unfold write_field. destruct (needs_quotes f) eqn:E.
  - rewrite read_quoted by done. cbn [read]. by rewrite rev_involutive.
  - destruct f as [|c f].
    + by destruct Hst as [-> | ->].
    + rewrite read_plain_start by done. cbn [read].
      by rewrite rev_involutive.
Qed.

(** A written field followed by the end of the record; at the start of a
    record the field must not be empty. *)
Lemma read_field_end st f rec out rest :
  start_state st -> (st = RecStart -> f <> []) ->
  read st [] rec out (write_field f ++ c_cr :: c_lf :: rest) =
  read RecStart [] [] (rev (f :: rec) :: out) rest.
Proof.
  intros Hst Hne. unfold write_field. destruct (needs_quotes f) eqn:E.
  - rewrite read_quoted by done. cbn [read]. by rewrite rev_involutive.
  - destruct f as [|c f].
    + destruct Hst as [-> | ->]; [by destruct Hne|done].
    + rewrite read_plain_start by done. cbn [read].
      by rewrite rev_involutive.
Qed.

Lemma join_fields_cons f g fs :
  join_fields (f :: g :: fs) = write_field f ++ c_comma :: join_fields (g :: fs).
Proof. reflexivity. Qed.

Lemma read_fields st fs rec out rest :
  start_state st -> fs <> [] -> (st = RecStart -> fs <> [[]]) ->
  read st [] rec out (join_fields fs ++ c_cr :: c_lf :: rest) =
  read RecStart [] [] ((rev rec ++ fs) :: out) rest.
Proof.
  revert st rec. induction fs as [|f fs IH]; intros st rec Hst Hne Hsingle; [done|].
  destruct fs as [|g fs].
  - cbn [join_fields]. rewrite read_field_end; [done|done|].
    intros -> ->. by apply Hsingle.
  - rewrite join_fields_cons, <- app_assoc. cbn [app].
    rewrite read_field_comma by done.
    rewrite IH; [|by right|done|done]. cbn [rev]. by rewrite <- app_assoc.
Qed.

Lemma write_field_nil f : write_field f = [] -> f = [].
Proof. unfold write_field. by destruct (needs_quotes f). Qed.

Lemma join_fields_nil fs : join_fields fs = [] -> fs = [] \/ fs = [[]].
Proof.
  destruct fs as [|f [|g fs]]; [by left| |].
  - intros ->%write_field_nil. by right.
  - rewrite join_fields_cons. by intros []%app_eq_nil.
Qed.

Lemma read_writerow fs out rest :
  read RecStart [] [] out (writerow fs ++ rest) =
  read RecStart [] [] (fs :: out) rest.
Proof.
  unfold writerow. destruct fs as [|f fs]; [done|].
  destruct (is_nil (join_fields (f :: fs))) eqn:E; cbn [negb is_nil andb].
  - destruct (join_fields (f :: fs)) eqn:J; [|done].
    by destruct (join_fields_nil _ J) as [|[= -> ->]].
  - rewrite <- app_assoc. cbn [app]. rewrite read_fields; [done|by left|done|].
    intros _ [= -> ->]. done.
Qed.

Lemma read_write_rows rows out rest :
  read RecStart [] [] out (write_rows rows ++ rest) =
  read RecStart [] [] (rev rows ++ out) rest.
Proof.
  revert out. induction rows as [|fs rows IH]; intros out; [done|].
  unfold write_rows in *. cbn [map concat]. rewrite <- app_assoc.
  rewrite read_writerow, IH. cbn [rev]. by rewrite <- app_assoc.
Qed.

Lemma read_csv_write_rows rows : read_csv (write_rows rows) = Some rows.
Proof.
  unfold read_csv. rewrite <- (app_nil_r (write_rows rows)), read_write_rows.
  cbn [read]. by rewrite app_nil_r, rev_involutive.
Qed.

(** *** The sheet as a grid *)

Lemma max_row_bound ws r c v :
  cells ws !! (r, c) = Some v -> (r <= max_row ws)%positive.
Proof.
  unfold max_row. revert r c v.
  apply (map_fold_weak_ind
           (fun acc (m : gmap (positive * positive) cell_value) =>
              forall r c v, m !! (r, c) = Some v -> (r <= acc)%positive)).
  - intros r c v H. by rewrite lookup_empty in H.
  - intros [r' c'] x m acc _ IH r c v H. cbn.
    destruct (decide ((r', c') = (r, c))) as [[= -> ->]|Hne].
    + lia.
    + rewrite lookup_insert_ne in H by done. specialize (IH _ _ _ H). lia.
Qed.

Lemma max_column_bound ws r c v :
  cells ws !! (r, c) = Some v -> (c <= max_column ws)%positive.
Proof.
  unfold max_column. revert r c v.
  apply (map_fold_weak_ind
           (fun acc (m : gmap (positive * positive) cell_value) =>
              forall r c v, m !! (r, c) = Some v -> (c <= acc)%positive)).
  - intros r c v H. by rewrite lookup_empty in H.
  - intros [r' c'] x m acc _ IH r c v H. cbn.
    destruct (decide ((r', c') = (r, c))) as [[= -> ->]|Hne].
    + lia.
    + rewrite lookup_insert_ne in H by done. specialize (IH _ _ _ H). lia.
Qed.

(** Every stored cell lies within the rows and the columns of the sheet. *)
Lemma stored_cell_in_grid ws r c v :
  cells ws !! (r, c) = Some v ->
  (Pos.to_nat r <= nrows ws)%nat /\ (Pos.to_nat c <= ncols ws)%nat.
Proof.
  intros H. unfold nrows, ncols. case_bool_decide as E.
  - rewrite E, lookup_empty in H. discriminate.
  - pose proof (max_row_bound _ _ _ _ H). pose proof (max_column_bound _ _ _ _ H).
    lia.
Qed.

Lemma nth_error_seq_lt s n i :
  (i < n)%nat -> nth_error (seq s n) i = Some (s + i)%nat.
Proof.
  revert s i. induction n as [|n IH]; intros s i Hi; [lia|].
  destruct i as [|i]; cbn; [f_equal; lia|].
  rewrite IH by lia. f_equal. lia.
Qed.

Lemma length_zrange_pos p : length (zrange 1 (Zpos p)) = Pos.to_nat p.
Proof. unfold zrange. rewrite length_map, length_seq. lia. Qed.

Lemma nth_error_zrange_pos p i :
  (i < Pos.to_nat p)%nat ->
  nth_error (zrange 1 (Zpos p)) i = Some (Zpos (Pos.of_succ_nat i)).
Proof.
  intros Hi. unfold zrange. rewrite nth_error_map, nth_error_seq_lt by lia.
  cbn [option_map]. f_equal. lia.
Qed.

Lemma length_cells_by_row ws mc mr :
  length (cells_by_row ws 1 1 (Zpos mc) (Zpos mr)) = Pos.to_nat mr.
Proof. unfold cells_by_row. by rewrite length_map, length_zrange_pos. Qed.

Lemma nth_error_cells_by_row ws mc mr i j :
  (i < Pos.to_nat mr)%nat -> (j < Pos.to_nat mc)%nat ->
  exists cs,
    nth_error (cells_by_row ws 1 1 (Zpos mc) (Zpos mr)) i = Some cs /\
    length cs = Pos.to_nat mc /\
    nth_error cs j = Some (cell_at ws (Pos.of_succ_nat i) (Pos.of_succ_nat j)).
Proof.
  intros Hi Hj. unfold cells_by_row. eexists. split; [|split].
  - rewrite nth_error_map, nth_error_zrange_pos by done. reflexivity.
  - by rewrite length_map, length_zrange_pos.
  - rewrite nth_error_map, nth_error_zrange_pos by done. reflexivity.
Qed.

Lemma Forall_length_cells_by_row ws mc mr :
  Forall (fun cs => length cs = Pos.to_nat mc)
         (cells_by_row ws 1 1 (Zpos mc) (Zpos mr)).
Proof.
  unfold cells_by_row. apply Forall_forall. intros cs Hin.
  apply list_elem_of_In, in_map_iff in Hin as (r & <- & _).
  by rewrite length_map, length_zrange_pos.
Qed.

(** [iter_rows_values] yields [nrows] rows of [ncols] raw values each, in
    row order and, within a row, in column order. *)
Lemma iter_rows_values_grid ws :
  length (iter_rows_values ws) = nrows ws /\
  Forall (fun vs => length vs = ncols ws) (iter_rows_values ws) /\
  forall i j, (i < nrows ws)%nat -> (j < ncols ws)%nat ->
    exists vs, nth_error (iter_rows_values ws) i = Some vs /\
               nth_error vs j = Some (raw_value ws i j).
Proof.
  unfold iter_rows_values, nrows, ncols.
  destruct (bool_decide (cells ws = ∅)).
  { repeat split; [constructor | intros; lia]. }
  repeat split.
  - by rewrite length_map, length_cells_by_row.
  - apply Forall_forall. intros vs Hin.
    apply list_elem_of_In, in_map_iff in Hin as (cs & <- & Hin).
    rewrite length_map.
    pose proof (Forall_length_cells_by_row ws (max_column ws) (max_row ws)) as HF.
    rewrite Forall_forall in HF. apply HF. by apply list_elem_of_In.
  - intros i j Hi Hj.
    destruct (nth_error_cells_by_row ws _ _ i j Hi Hj) as (cs & H1 & _ & H2).
    exists (map value cs). rewrite !nth_error_map, H1. cbn. by rewrite H2.
Qed.

(** Claim C4.  [to_csv] on a file that decodes, with an active sheet of N
    rows and M columns, returns a CSV file that reads back as exactly N
    records of M fields each; the field in record [i] and position [j] is
    the text of the raw value in row [i], column [j] of the sheet, empty
    cells included; and every cell the sheet stores lies within these N
    rows and M columns. *)
Theorem to_csv_records lib data params file wb ws
  (Hcall : calls data (JStr "to_csv") params)
  (Hfile : has_param params "file" file)
  (Hbook : load_workbook_from_b64 lib file = Ok wb)
  (Hactive : wb_active wb = Some ws) :
  exists csv_content records,
    run_tool lib (Body data) = ok_file (csv_prefix ++ b64encode lib csv_content) /\
    read_csv (chars csv_content) = Some records /\
    length records = nrows ws /\
    Forall (fun fields => length fields = ncols ws) records /\
    (forall i j, (i < nrows ws)%nat -> (j < ncols ws)%nat ->
       exists fields, nth_error records i = Some fields /\
                      nth_error fields j = Some (csv_text lib (raw_value ws i j))) /\
    (forall r c v, cells ws !! (r, c) = Some v ->
       (Pos.to_nat r <= nrows ws)%nat /\ (Pos.to_nat c <= ncols ws)%nat).
Proof.
  set (rows := map (map (csv_text lib)) (iter_rows_values ws)).
  exists (str (write_rows rows)), rows.
  destruct (iter_rows_values_grid ws) as (Hlen & Hall & Hnth).
  split; [by run|]. split; [|split; [|split; [|split; [|apply stored_cell_in_grid]]]].
  - unfold chars, str. by rewrite list_ascii_of_string_of_list_ascii, read_csv_write_rows.
  - unfold rows. by rewrite length_map.
  - unfold rows. apply Forall_forall. intros fields Hin.
    apply list_elem_of_In, in_map_iff in Hin as (vs & <- & Hin).
    rewrite length_map. rewrite Forall_forall in Hall.
    apply Hall. by apply list_elem_of_In.
  - intros i j Hi Hj. destruct (Hnth i j Hi Hj) as (vs & H1 & H2).
    exists (map (csv_text lib) vs). unfold rows.
    rewrite !nth_error_map, H1. cbn. by rewrite H2.
Qed.

(** ** Further properties of the program *)

(** *** References and sheet names *)

Lemma split_once_app c h t :
  contains c h = false -> split_once c (h ++ String c t)%string = Some (h, t).
Proof.
  induction h as [|a h IH].
  - intros _. change ("" ++ String c t)%string with (String c t). cbn.
    by rewrite Ascii.eqb_refl.
  - change (String a h ++ String c t)%string with (String a (h ++ String c t)%string).
    cbn. destruct (Ascii.eqb a c); [discriminate|]. intros H. by rewrite (IH H).
Qed.

Lemma parse_range_string_returns range_str sheet_name addr :
  parse_range_string range_str = Ok (sheet_name, addr) ->
  range_str = JStr (sheet_name ++ String c_bang addr)%string /\
  contains c_bang sheet_name = false.
Proof.
  unfold parse_range_string.
  destruct range_str as [| b | z | f | s | l | kvs]; cbn; try discriminate.
  - destruct (contains c_bang s) eqn:E; cbn; [|discriminate].
    destruct (contains_split_once _ _ E) as (h & t & -> & -> & Hh).
    by intros [= <- <-].
  - by destruct (existsb _ l).
  - by destruct (assoc_last "!" kvs).
Qed.

(** Property X1.  [parse_range_string] returns the pair (sheet name,
    address) exactly for the string made of the sheet name, a [!] and the
    address, where the sheet name has no [!]; the address may have more of
    them.  It returns for no value that is not a string. *)
Theorem parse_range_string_inverse range_str sheet_name addr :
  parse_range_string range_str = Ok (sheet_name, addr) <->
  range_str = JStr (sheet_name ++ String c_bang addr)%string /\
  contains c_bang sheet_name = false.
Proof.
  split; [apply parse_range_string_returns|].
  intros [-> H]. apply parse_range_string_split. by apply split_once_app.
Qed.

Lemma parse_range_string_not_iterable ref :
  is_str ref = false -> is_container ref = false ->
  parse_range_string ref =
    raise TypeError ("argument of type '" ++ type_name ref ++ "' is not iterable")%string.
Proof. by destruct ref. Qed.

Lemma parse_range_string_container ref :
  is_container ref = true ->
  exists e, parse_range_string ref = Raise e /\
            (exn_cls e = ValueError \/ exn_cls e = AttributeError).
Proof.
  unfold parse_range_string.
  destruct ref as [| | | | |l|kvs]; try discriminate; intros _; cbn.
  - destruct (existsb _ l); cbn; eauto.
  - destruct (assoc_last "!" kvs); cbn; eauto.
Qed.

Lemma handle_500 e :
  exn_cls e <> KeyError -> exn_cls e <> TypeError ->
  handle e = mkResponse 500 (error_body (exn_msg e)).
Proof. unfold handle. by destruct (exn_cls e). Qed.

(** Property X2.  A reference that is not a string is never accepted.  On
    a file that decodes, each of the four tools that take a reference
    answers a number, a boolean or null with the 400 error of a value that
    cannot be searched for [!], and an array or an object with a 500
    error. *)
Theorem reference_must_be_a_string lib data tool key params file wb ref
  (Htool : reference_param tool = Some key)
  (Hcall : calls data (JStr tool) params)
  (Hfile : has_param params "file" file)
  (Hbook : load_workbook_from_b64 lib file = Ok wb)
  (Href : has_param params key ref)
  (Hstr : is_str ref = false) :
  is_failure (run_tool lib (Body data)) /\
  (is_container ref = false ->
     run_tool lib (Body data) =
       mkResponse 400
         (error_body (bad_parameter ++ "argument of type '" ++ type_name ref
                        ++ "' is not iterable"))) /\
  (is_container ref = true -> status (run_tool lib (Body data)) = 500).
Proof.
  assert (Hrun : forall e, parse_range_string ref = Raise e ->
                           run_tool lib (Body data) = handle e).
  { intros e He.
    destruct (reference_param_cases _ _ Htool)
      as [[-> ->]|[[-> ->]|[[-> ->]|[-> ->]]]]; by run. }
  destruct (is_container ref) eqn:Hc.
  - destruct (parse_range_string_container _ Hc) as (e & He & Hcls).
    rewrite (Hrun _ He). split; [apply handle_failure|]. split; [done|].
    intros _. rewrite handle_500; [done| |]; destruct Hcls as [-> | ->]; discriminate.
  - rewrite (Hrun _ (parse_range_string_not_iterable _ Hstr Hc)).
    split; [apply handle_failure|]. by split.
Qed.

Lemma no_sheet_getitem wb name :
  no_sheet wb name ->
  wb_getitem wb name =
    raise KeyError (py_repr ("Worksheet " ++ name ++ " does not exist.")).
Proof.
  unfold no_sheet, wb_getitem. intros H.
  assert (find (fun ws => String.eqb (title ws) name) (sheets wb) = None) as ->;
    [|done].
  induction H as [|ws l Hne _ IH]; [done|]. cbn.
  by destruct (String.eqb_spec (title ws) name).
Qed.

(** Property X3.  A reference to a sheet that the workbook does not have
    is answered with status 400 and the message for a missing or invalid
    parameter: the [KeyError] of the sheet lookup reaches the clause that
    is meant for missing parameters.  [set_cell] looks the sheet up after
    it has read its [value]. *)
Theorem unknown_sheet_is_a_bad_parameter
    lib data tool key params file wb ref sheet_name addr
  (Htool : reference_param tool = Some key)
  (Hcall : calls data (JStr tool) params)
  (Hfile : has_param params "file" file)
  (Hbook : load_workbook_from_b64 lib file = Ok wb)
  (Href : has_param params key (JStr ref))
  (Hsplit : split_once c_bang ref = Some (sheet_name, addr))
  (Hvalue : tool = "set_cell" -> exists v, has_param params "value" v)
  (Hnone : no_sheet wb sheet_name) :
  fails_with 400 bad_parameter (run_tool lib (Body data)).
Proof.
  apply no_sheet_getitem in Hnone. apply parse_range_string_split in Hsplit.
  exists (py_repr ("Worksheet " ++ sheet_name ++ " does not exist.")).
  destruct (reference_param_cases _ _ Htool)
    as [[-> ->]|[[-> ->]|[[-> ->]|[-> ->]]]]; try by run.
  destruct (Hvalue eq_refl) as [v Hv]. run.
  unfold write_cell. by rewrite Hnone.
Qed.

Lemma no_sheet_without_bang wb name :
  Forall (fun ws => contains c_bang (title ws) = true) (sheets wb) ->
  contains c_bang name = false -> no_sheet wb name.
Proof.
  unfold no_sheet. intros H Hname. eapply Forall_impl; [exact H|].
  intros ws Hws Ht. cbn in Hws. congruence.
Qed.

(** Property X4.  A reference is split at its first [!], so the name that
    is looked up never has a [!]: in a workbook whose sheet titles all have
    one, no reference reaches a sheet, and every request to a tool that
    takes a reference fails. *)
Theorem sheet_titles_with_bang_are_out_of_reach lib data tool key params file wb
  (Htool : reference_param tool = Some key)
  (Hcall : calls data (JStr tool) params)
  (Hfile : has_param params "file" file)
  (Hbook : load_workbook_from_b64 lib file = Ok wb)
  (Hbang : Forall (fun ws => contains c_bang (title ws) = true) (sheets wb)) :
  is_failure (run_tool lib (Body data)).
Proof.
  destruct (py_index params key) as [ref|e] eqn:Href.
  2: { destruct (reference_param_cases _ _ Htool)
         as [[-> ->]|[[-> ->]|[[-> ->]|[-> ->]]]]; run; apply handle_failure. }
  destruct (parse_range_string ref) as [[sheet_name addr]|e] eqn:Hparse.
  2: { destruct (reference_param_cases _ _ Htool)
         as [[-> ->]|[[-> ->]|[[-> ->]|[-> ->]]]]; run; apply handle_failure. }
  pose proof Hparse as [_ Hname]%parse_range_string_returns.
  pose proof (no_sheet_getitem _ _ (no_sheet_without_bang _ _ Hbang Hname)) as Hws.
  destruct (reference_param_cases _ _ Htool)
    as [[-> ->]|[[-> ->]|[[-> ->]|[-> ->]]]]; try (run; apply handle_failure).
  destruct (py_index params "value") as [v|e] eqn:Hv; run; [|apply handle_failure].
  unfold write_cell. rewrite Hws. apply handle_failure.
Qed.

(** *** What a reference resolves to *)

(** Property X5.  [sum_range] and [avg_range] iterate rows and then the
    cells of a row.  When the reference resolves to one cell, or to the
    cells of one whole column or row, the first thing they are asked to
    iterate is a cell, and the answer is the 400 error that says so. *)
Theorem range_tools_need_rows lib data tool params file wb ref res
  (Htool : tool = "sum_range" \/ tool = "avg_range")
  (Hcall : calls data (JStr tool) params)
  (Hfile : has_param params "file" file)
  (Hbook : load_workbook_from_b64 lib file = Ok wb)
  (Hrange : has_param params "range" (JStr ref))
  (Hres : resolves lib wb ref res)
  (Hcell : not_rows res = true) :
  run_tool lib (Body data) = cell_not_iterable.
Proof.
  destruct Htool as [-> | ->].
  - rewrite (run_sum_range _ _ _ _ _ _ Hfile Hbook Hrange _ Hcall Hres).
    by destruct res as [c|[|c cs]|rows].
  - rewrite (run_avg_range _ _ _ _ _ _ Hfile Hbook Hrange _ Hcall Hres).
    by destruct res as [c|[|c cs]|rows].
Qed.

(** Property X6.  [get_cell] and [set_cell] use the [value] attribute of
    what the reference resolves to.  When that is a tuple (a span, whole
    rows or columns) the answer is a 500 error; [set_cell] gives it after
    it has converted the value, and returns no file. *)
Theorem cell_tools_need_a_cell lib data params file wb ref res
  (Hfile : has_param params "file" file)
  (Hbook : load_workbook_from_b64 lib file = Ok wb)
  (Hcell : has_param params "cell" (JStr ref))
  (Hres : resolves lib wb ref res)
  (Htuple : is_cell res = false) :
  (calls data (JStr "get_cell") params ->
     run_tool lib (Body data) = tuple_has_no_value) /\
  (calls data (JStr "set_cell") params ->
     forall new_value v,
       has_param params "value" new_value -> coerce_value lib new_value = Ok v ->
       run_tool lib (Body data) = tuple_has_no_value).
Proof.
  split.
  - intros Hcall. run. by destruct res.
  - intros Hcall new_value v Hvalue Hv. run.
    unfold write_cell.
    repeat match goal with H : ?x = _ |- context [?x] => rewrite H; cbn [rbind] end.
    unfold ws_setitem.
    repeat match goal with H : ?x = _ |- context [?x] => rewrite H; cbn [rbind] end.
    by destruct res.
Qed.

(** Property X7.  [get_cell] on a reference to one cell returns the value
    the sheet stores there as it is: a number as a number, text as text,
    and null for a cell that holds nothing. *)
Theorem get_cell_returns_raw_value lib data params file wb ref sheet_name addr ws c r
  (Hcall : calls data (JStr "get_cell") params)
  (Hfile : has_param params "file" file)
  (Hbook : load_workbook_from_b64 lib file = Ok wb)
  (Hcell : has_param params "cell" (JStr ref))
  (Hsingle : single_cell wb ref sheet_name addr ws c r) :
  run_tool lib (Body data) =
    ok_value (json_of_value (stored ws (Z.to_pos r) (Z.to_pos c))) /\
  (cells ws !! (Z.to_pos r, Z.to_pos c) = None ->
     run_tool lib (Body data) = ok_value JNull).
Proof.
  destruct Hsingle as (Hsplit & Hws & Haddr).
  rewrite (run_get_cell _ _ _ _ _ _ _ _ _ Hcall Hfile Hbook Hcell Hsplit Hws).
  rewrite (ws_getitem_cell _ _ _ _ _ Haddr). cbn. split; [done|].
  unfold cell_at. cbn. by intros ->.
Qed.

(** *** The workbook that [set_cell] saves *)

Lemma find_replace_other name name' ws' l :
  title ws' = name -> name' <> name ->
  find (fun ws => String.eqb (title ws) name') (replace_sheet name ws' l) =
  find (fun ws => String.eqb (title ws) name') l.
Proof.
  intros Ht Hne. induction l as [|w l IH]; [done|]. cbn.
  destruct (String.eqb_spec (title w) name) as [Hw|Hw]; cbn.
  - rewrite Ht, Hw. by destruct (String.eqb_spec name name').
  - by rewrite IH.
Qed.

Lemma titles_replace_sheet name ws' l :
  title ws' = name -> map title (replace_sheet name ws' l) = map title l.
Proof.
  intros Ht. induction l as [|w l IH]; [done|]. cbn.
  destruct (String.eqb_spec (title w) name) as [Hw|Hw]; cbn; congruence.
Qed.

Lemma replace_sheet_twice name ws1 ws2 l :
  title ws1 = name ->
  replace_sheet name ws2 (replace_sheet name ws1 l) = replace_sheet name ws2 l.
Proof.
  intros Ht. induction l as [|w l IH]; [done|]. cbn.
  destruct (String.eqb_spec (title w) name) as [Hw|Hw]; cbn.
  - by rewrite Ht, String.eqb_refl.
  - destruct (String.eqb_spec (title w) name); [done|]. by rewrite IH.
Qed.

Lemma replace_sheet_commute n1 n2 ws1 ws2 l :
  title ws1 = n1 -> title ws2 = n2 -> n1 <> n2 ->
  replace_sheet n2 ws2 (replace_sheet n1 ws1 l) =
  replace_sheet n1 ws1 (replace_sheet n2 ws2 l).
Proof.
  intros H1 H2 Hne. induction l as [|w l IH]; [done|]. cbn.
  destruct (String.eqb_spec (title w) n1) as [Hw1|Hw1];
    destruct (String.eqb_spec (title w) n2) as [Hw2|Hw2]; cbn.
  - congruence.
  - rewrite H1. destruct (String.eqb_spec n1 n2); [done|].
    destruct (String.eqb_spec (title w) n1); done.
  - rewrite H2. destruct (String.eqb_spec n2 n1); [congruence|].
    destruct (String.eqb_spec (title w) n2); done.
  - destruct (String.eqb_spec (title w) n1); [done|].
    destruct (String.eqb_spec (title w) n2); [done|]. by rewrite IH.
Qed.

(** What [write_cell] returns: the sheet is looked up, the value converted
    and checked, one cell of the sheet replaced. *)
Lemma write_cell_inv lib wb sheet_name addr new_value wb' :
  write_cell lib wb sheet_name addr new_value = Ok wb' ->
  exists ws v v' cell,
    wb_getitem wb sheet_name = Ok ws /\
    coerce_value lib new_value = Ok v /\
    ws_getitem lib ws addr = Ok (RCell cell) /\
    bind_value v = Ok v' /\
    wb' = update_sheet wb sheet_name
            (mkSheet (title ws) (<[(row cell, column cell) := v']> (cells ws))).
Proof.
  unfold write_cell, ws_setitem.
  destruct (wb_getitem wb sheet_name) as [ws|] eqn:Hws; cbn; [|done].
  destruct (coerce_value lib new_value) as [v|] eqn:Hv; cbn; [|done].
  destruct (ws_getitem lib ws addr) as [[cell|cs|rows]|] eqn:Hres; cbn; try done.
  destruct (bind_value v) as [v'|] eqn:Hb; cbn; [|done].
  intros [= <-]. by exists ws, v, v', cell.
Qed.

Lemma wb_getitem_title wb name ws : wb_getitem wb name = Ok ws -> title ws = name.
Proof.
  unfold wb_getitem. destruct (find _ (sheets wb)) eqn:E; [|done].
  intros [= <-]. by eapply find_title_eq.
Qed.

Lemma wb_getitem_update_other wb name name' ws' :
  title ws' = name -> name' <> name ->
  wb_getitem (update_sheet wb name ws') name' = wb_getitem wb name'.
Proof.
  intros Ht Hne. unfold wb_getitem, update_sheet. cbn.
  by rewrite find_replace_other.
Qed.

(** Property X8.  The workbook [set_cell] saves differs from the decoded
    one in one cell of the named sheet: the titles and the order of the
    sheets and the active sheet are the same, every other sheet is the
    same, and in the named sheet every position but one holds what it
    held; the one position is the addressed one when the address is a cell
    address. *)
Theorem write_cell_changes_one_cell lib wb sheet_name addr new_value wb' :
  write_cell lib wb sheet_name addr new_value = Ok wb' ->
  map title (sheets wb') = map title (sheets wb) /\
  active_index wb' = active_index wb /\
  (forall name, name <> sheet_name -> wb_getitem wb' name = wb_getitem wb name) /\
  exists ws ws' r c,
    wb_getitem wb sheet_name = Ok ws /\
    wb_getitem wb' sheet_name = Ok ws' /\
    (forall r' c', (r', c') <> (r, c) -> stored ws' r' c' = stored ws r' c') /\
    (forall col n, parse_address addr = Some (ACell col n) ->
       r = Z.to_pos n /\ c = Z.to_pos col).
Proof.
  intros (ws & v & v' & cell & Hws & Hv & Hres & Hb & ->)%write_cell_inv.
  pose proof (wb_getitem_title _ _ _ Hws) as Ht.
  split; [by apply titles_replace_sheet|]. split; [done|].
  split; [intros name Hne; by apply wb_getitem_update_other|].
  eexists ws, _, (row cell), (column cell).
  split; [done|]. split; [by apply (wb_getitem_update _ _ ws)|].
  unfold stored. cbn. split.
  - intros r' c' Hne. by rewrite lookup_insert_ne.
  - intros col n Haddr. rewrite (ws_getitem_cell _ _ _ _ _ Haddr) in Hres.
    by injection Hres as <-.
Qed.

Lemma sheet_with_twice ws c r v1 v2 :
  sheet_with (sheet_with ws c r v1) c r v2 = sheet_with ws c r v2.
Proof. unfold sheet_with. cbn. by rewrite insert_insert_eq. Qed.

Lemma update_sheet_twice wb name ws1 ws2 :
  title ws1 = name ->
  update_sheet (update_sheet wb name ws1) name ws2 = update_sheet wb name ws2.
Proof. intros H. unfold update_sheet. cbn. by rewrite replace_sheet_twice. Qed.

Lemma write_cell_at lib wb sheet_name addr col n new_value :
  parse_address addr = Some (ACell col n) ->
  write_cell lib wb sheet_name addr new_value =
  rbind (wb_getitem wb sheet_name) (fun ws =>
  rbind (coerce_value lib new_value) (fun v =>
  rbind (bind_value v) (fun v' =>
  Ok (update_sheet wb sheet_name (sheet_with ws col n v'))))).
Proof.
  intros Haddr. unfold write_cell.
  destruct (wb_getitem wb sheet_name) as [ws|]; cbn; [|done].
  destruct (coerce_value lib new_value) as [v|]; cbn; [|done].
  rewrite (ws_setitem_cell _ _ _ _ _ _ Haddr).
  by destruct (bind_value v).
Qed.

(** Property X9.  Writing a cell twice is the same as writing it once with
    the second value: on the workbook a first write produced, a second
    write to the same cell gives what it gives on the original workbook,
    the same workbook or the same exception. *)
Theorem write_cell_last_write_wins lib wb sheet_name addr col n v1 v2 wb1 :
  parse_address addr = Some (ACell col n) ->
  write_cell lib wb sheet_name addr v1 = Ok wb1 ->
  write_cell lib wb1 sheet_name addr v2 = write_cell lib wb sheet_name addr v2.
Proof.
  intros Haddr. rewrite !(write_cell_at _ _ _ _ _ _ _ Haddr).
  destruct (wb_getitem wb sheet_name) as [ws|] eqn:Hws; cbn; [|done].
  pose proof (wb_getitem_title _ _ _ Hws) as Ht.
  destruct (coerce_value lib v1) as [x1|]; cbn; [|done].
  destruct (bind_value x1) as [y1|]; cbn; [|done]. intros [= <-].
  rewrite (wb_getitem_update _ _ ws) by done. cbn.
  destruct (coerce_value lib v2) as [x2|]; cbn; [|done].
  destruct (bind_value x2) as [y2|]; cbn; [|done].
  by rewrite sheet_with_twice, update_sheet_twice.
Qed.

(** Property X10.  Writes to two different cells, of one sheet or of two,
    can be made in either order: when each succeeds on the workbook, each
    succeeds after the other one, and both orders give the same
    workbook. *)
Theorem writes_to_different_cells_commute
    lib wb n1 a1 c1 r1 v1 n2 a2 c2 r2 v2 wb1 wb2 :
  parse_address a1 = Some (ACell c1 r1) ->
  parse_address a2 = Some (ACell c2 r2) ->
  (n1, Z.to_pos r1, Z.to_pos c1) <> (n2, Z.to_pos r2, Z.to_pos c2) ->
  write_cell lib wb n1 a1 v1 = Ok wb1 ->
  write_cell lib wb n2 a2 v2 = Ok wb2 ->
  exists wb12,
    write_cell lib wb1 n2 a2 v2 = Ok wb12 /\
    write_cell lib wb2 n1 a1 v1 = Ok wb12.
Proof.
  intros Ha1 Ha2 Hne.
  rewrite !(write_cell_at _ _ _ _ _ _ _ Ha1), !(write_cell_at _ _ _ _ _ _ _ Ha2).
  destruct (wb_getitem wb n1) as [ws1|] eqn:Hws1; cbn; [|done].
  destruct (coerce_value lib v1) as [x1|]; cbn; [|done].
  destruct (bind_value x1) as [y1|]; cbn; [|done]. intros [= <-].
  destruct (wb_getitem wb n2) as [ws2|] eqn:Hws2; cbn; [|done].
  destruct (coerce_value lib v2) as [x2|]; cbn; [|done].
  destruct (bind_value x2) as [y2|]; cbn; [|done]. intros [= <-].
  pose proof (wb_getitem_title _ _ _ Hws1) as Ht1.
  pose proof (wb_getitem_title _ _ _ Hws2) as Ht2.
  destruct (decide (n1 = n2)) as [<-|Hn].
  - rewrite Hws1 in Hws2. injection Hws2 as <-.
    rewrite !(wb_getitem_update _ _ ws1) by done. cbn.
    eexists. split; [reflexivity|]. rewrite !update_sheet_twice by done.
    do 2 f_equal. unfold sheet_with. cbn. f_equal.
    apply insert_insert_ne. congruence.
  - rewrite !wb_getitem_update_other by done. rewrite Hws1, Hws2. cbn.
    eexists. split; [reflexivity|]. unfold update_sheet. cbn.
    do 2 f_equal. by apply replace_sheet_commute.
Qed.

Lemma coerce_value_refuses lib v :
  is_text_or_number v = false ->
  coerce_value lib v =
    raise TypeError ("float() argument must be a string or a real number, not '"
                       ++ type_name v ++ "'")%string.
Proof. by destruct v. Qed.

(** Property X11.  On a reference to a sheet that exists, [set_cell]
    refuses a value that is null, an array or an object with the 400 error
    of [float].  Whatever the value, a position whose content changed
    holds a float afterwards, or text when the value was a string that does
    not read as a float: never an integer, a boolean or nothing. *)
Theorem set_cell_value_kinds lib data params file wb ref sheet_name addr ws new_value
  (Hcall : calls data (JStr "set_cell") params)
  (Hfile : has_param params "file" file)
  (Hbook : load_workbook_from_b64 lib file = Ok wb)
  (Hcell : has_param params "cell" (JStr ref))
  (Hsplit : split_once c_bang ref = Some (sheet_name, addr))
  (Hws : wb_getitem wb sheet_name = Ok ws)
  (Hvalue : has_param params "value" new_value) :
  (is_text_or_number new_value = false ->
     run_tool lib (Body data) = float_needs_a_number new_value) /\
  (forall wb' ws' r c,
     write_cell lib wb sheet_name addr new_value = Ok wb' ->
     wb_getitem wb' sheet_name = Ok ws' ->
     stored ws' r c <> stored ws r c ->
     (exists f, stored ws' r c = VFloat f) \/
     (exists s s', new_value = JStr s /\ float_of_str lib s = None /\
                   stored ws' r c = VStr s')).
Proof.
  split.
  - intros Hv. apply (coerce_value_refuses lib) in Hv.
    apply parse_range_string_split in Hsplit. run.
    unfold write_cell. by rewrite Hws, Hv.
  - intros wb' ws' r c
      (ws0 & v & v' & cell & Hws0 & Hv & Hres & Hb & ->)%write_cell_inv Hws' Hne.
    rewrite Hws in Hws0. injection Hws0 as <-.
    rewrite (wb_getitem_update _ _ ws) in Hws' by done. injection Hws' as <-.
    unfold stored in *. cbn in *.
    destruct (decide ((row cell, column cell) = (r, c))) as [E|E].
    + rewrite E, lookup_insert_eq in *. cbn in *.
      unfold coerce_value in Hv.
      destruct new_value as [| b | z | f | s | |]; try discriminate.
      * destruct (float_of_int (Z.b2z b)); cbn in Hv; [|done].
        injection Hv as <-. injection Hb as <-. eauto.
      * destruct (float_of_int z); cbn in Hv; [|done].
        injection Hv as <-. injection Hb as <-. eauto.
      * injection Hv as <-. injection Hb as <-. eauto.
      * destruct (float_of_str lib s) eqn:F; injection Hv as <-.
        -- injection Hb as <-. eauto.
        -- cbn in Hb. unfold check_string in Hb.
           destruct (existsb _ _); [done|]. injection Hb as <-. eauto 6.
    + by rewrite lookup_insert_ne in Hne.
Qed.

(** *** Values that read as numbers *)

Lemma is_digit_not_space c : is_digit c = true -> is_space c = false.
Proof.
  unfold is_digit, is_space. destruct (nat_of_ascii c) as [|n] eqn:E; [done|].
  intros H. apply andb_true_iff in H as [H1%Nat.leb_le H2%Nat.leb_le].
  apply orb_false_iff. split.
  - apply Nat.eqb_neq. lia.
  - apply andb_false_iff. right. apply Nat.leb_gt. lia.
Qed.

Lemma is_digit_cases c : is_digit c = true -> In c (chars "0123456789").
Proof.
  unfold is_digit. intros H.
  apply andb_true_iff in H as [H1%Nat.leb_le H2%Nat.leb_le].
  rewrite <- (ascii_nat_embedding c).
  assert (Hn : In (nat_of_ascii c) (seq 48 10)) by (apply in_seq; lia).
  cbn in Hn.
  repeat (destruct Hn as [<-|Hn]; [cbn; tauto|]). done.
Qed.

Lemma digitpart_digits ds :
  forallb is_digit ds = true -> digitpart ds = (ds, []).
Proof.
  induction ds as [|d ds IH]; [done|].
  intros H. cbn [forallb] in H. apply andb_true_iff in H as [Hd Hds].
  specialize (IH Hds). cbn [digitpart]. rewrite Hd.
  destruct ds as [|u [|d' ds']].
  - done.
  - by rewrite IH.
  - assert (Hu : Ascii.eqb u "_" = false).
    { cbn [forallb] in Hds. apply andb_true_iff in Hds as [Hu%is_digit_cases _].
      cbn in Hu. repeat (destruct Hu as [<-|Hu]; [done|]). done. }
    rewrite Hu. cbn [andb]. by rewrite IH.
Qed.

Lemma lstrip_not_space c l : is_space c = false -> lstrip (c :: l) = c :: l.
Proof. intros H. cbn. by rewrite H. Qed.

(** Text that neither begins nor ends with white space is not changed by
    [strip]. *)
Lemma strip_tight c l d :
  is_space c = false -> is_space d = false ->
  strip (c :: l ++ [d]) = c :: l ++ [d].
Proof.
  intros Hc Hd. unfold strip. rewrite (lstrip_not_space _ _ Hc).
  change (c :: l ++ [d]) with ((c :: l) ++ [d]). rewrite rev_app_distr.
  cbn [rev app]. rewrite (lstrip_not_space _ _ Hd).
  change (d :: rev l ++ [c]) with ([d] ++ rev (c :: l)).
  by rewrite rev_app_distr, rev_involutive.
Qed.

Lemma strip_one c : is_space c = false -> strip [c] = [c].
Proof. intros Hc. unfold strip. cbn. rewrite Hc. cbn. by rewrite Hc. Qed.

Lemma strip_digits pre ds :
  Forall (fun c => is_space c = false) pre ->
  ds <> [] -> forallb is_digit ds = true -> strip (pre ++ ds) = pre ++ ds.
Proof.
  intros Hpre Hne Hds.
  assert (Hall : Forall (fun c => is_space c = false) (pre ++ ds)).
  { apply Forall_app. split; [done|]. apply Forall_forall. intros c Hc.
    apply is_digit_not_space. rewrite forallb_forall in Hds.
    by apply Hds, list_elem_of_In. }
  assert (Hne' : pre ++ ds <> []) by (by destruct pre, ds).
  destruct (pre ++ ds) as [|c l]; [done|].
  destruct (exists_last (l:=c :: l)) as (l' & d & E); [done|].
  destruct l' as [|c' l'].
  - cbn in E. injection E as -> ->. apply strip_one.
    by apply Forall_cons in Hall as [? _].
  - rewrite E in *. cbn in E. injection E as -> _.
    apply Forall_cons in Hall as [Hc Hall]. cbn.
    apply strip_tight; [done|].
    apply Forall_app in Hall as [_ Hd]. by apply Forall_cons in Hd as [? _].
Qed.

Lemma lower_digit c : is_digit c = true -> lower c = c.
Proof.
  intros Hc%is_digit_cases. cbn in Hc.
  repeat (destruct Hc as [<-|Hc]; [done|]). done.
Qed.

(** A run of digits after the sign is read as that number. *)
Lemma read_digits neg ds :
  ds <> [] -> forallb is_digit ds = true ->
  (let word := str (map lower ds) in
   if String.eqb word "inf" || String.eqb word "infinity"
   then Some (S754_infinity neg)
   else if String.eqb word "nan" then Some S754_nan
   else read_number neg ds) = Some (float_of_decimal neg (digits_val ds) 0).
Proof.
  intros Hne Hds. cbn zeta. unfold str.
  destruct ds as [|d ds']; [done|]. set (ds := d :: ds') in *.
  assert (Hd : is_digit d = true) by (by apply andb_true_iff in Hds as [? _]).
  assert (Hword : forall w,
            String.eqb (string_of_list_ascii (map lower ds)) w = true ->
            exists c w', w = String c w' /\ is_digit c = true).
  { intros w Hw%String.eqb_eq. subst w ds. cbn. rewrite (lower_digit _ Hd). eauto. }
  destruct (String.eqb _ "inf") eqn:E1.
  { destruct (Hword _ E1) as (c & w' & [= <- _] & Hc). done. }
  destruct (String.eqb _ "infinity") eqn:E2.
  { destruct (Hword _ E2) as (c & w' & [= <- _] & Hc). done. }
  destruct (String.eqb _ "nan") eqn:E3.
  { destruct (Hword _ E3) as (c & w' & [= <- _] & Hc). done. }
  cbn [orb]. unfold read_number. rewrite (digitpart_digits _ Hds).
  rewrite app_nil_r. subst ds. cbn [read_exponent length Z.of_nat].
  reflexivity.
Qed.

Lemma read_sign_digits ds :
  ds <> [] -> forallb is_digit ds = true -> read_sign ds = (false, ds).
Proof.
  destruct ds as [|d ds]; [done|]. intros _ [Hd%is_digit_cases _]%andb_true_iff.
  cbn in Hd. repeat (destruct Hd as [<-|Hd]; [done|]). done.
Qed.

(** An optional minus sign and a run of digits. *)
Lemma py_float_digits (neg : bool) ds :
  ds <> [] -> forallb is_digit ds = true ->
  py_float (str ((if neg then ["-"%char] else []) ++ ds)) =
    Some (float_of_decimal neg (digits_val ds) 0).
Proof.
  intros Hne Hds. unfold py_float, chars. unfold str at 1.
  rewrite list_ascii_of_string_of_list_ascii.
  rewrite strip_digits; [|by destruct neg; repeat constructor|done|done].
  destruct neg; cbn [app read_sign Ascii.eqb Bool.eqb].
  - by apply read_digits.
  - rewrite (read_sign_digits _ Hne Hds). by apply read_digits.
Qed.

Lemma is_ascii_str l :
  forallb (fun c => (nat_of_ascii c <? 128)%nat) l = true -> is_ascii (str l) = true.
Proof.
  intros H. unfold is_ascii, chars, str.
  by rewrite list_ascii_of_string_of_list_ascii.
Qed.

Lemma is_digit_ascii c : is_digit c = true -> (nat_of_ascii c <? 128)%nat = true.
Proof.
  unfold is_digit. intros [_ H%Nat.leb_le]%andb_true_iff.
  apply Nat.ltb_lt. lia.
Qed.

Lemma is_space_ascii c : is_space c = true -> (nat_of_ascii c <? 128)%nat = true.
Proof.
  unfold is_space. intros H. apply Nat.ltb_lt.
  apply orb_true_iff in H as [H%Nat.eqb_eq|[_ H%Nat.leb_le]%andb_true_iff]; lia.
Qed.

Lemma forallb_impl {A} (p q : A -> bool) l :
  (forall x, p x = true -> q x = true) -> forallb p l = true -> forallb q l = true.
Proof.
  intros Hpq. rewrite !forallb_forall. intros H x Hx. by apply Hpq, H.
Qed.

Lemma digits_ascii ds :
  forallb is_digit ds = true ->
  forallb (fun c => (nat_of_ascii c <? 128)%nat) ds = true.
Proof. apply forallb_impl, is_digit_ascii. Qed.

Lemma spaces_ascii sp :
  forallb is_space sp = true ->
  forallb (fun c => (nat_of_ascii c <? 128)%nat) sp = true.
Proof. apply forallb_impl, is_space_ascii. Qed.

(** Property X12.  A value that consists of the ASCII decimal digits 0 to
    9 only, however many, reads as a float, and [set_cell] stores it as
    the float nearest to the number the digits denote, never as text. *)
Theorem digits_read_as_float lib ds :
  ds <> [] -> forallb is_digit ds = true ->
  float_of_str lib (str ds) = Some (float_of_digits ds) /\
  coerce_value lib (JStr (str ds)) = Ok (VFloat (float_of_digits ds)) /\
  bind_value (VFloat (float_of_digits ds)) = Ok (VFloat (float_of_digits ds)).
Proof.
  intros Hne Hds. pose proof (py_float_digits false ds Hne Hds) as Hf.
  cbn [app] in Hf.
  assert (H : float_of_str lib (str ds) = Some (float_of_digits ds)).
  { unfold float_of_str. by rewrite (is_ascii_str _ (digits_ascii _ Hds)). }
  split; [done|]. split; [|done]. unfold coerce_value. by rewrite H.
Qed.

Lemma string_of_uint_digits u :
  forallb is_digit (chars (NilEmpty.string_of_uint u)) = true.
Proof.
  unfold chars. induction u; [done|..];
    cbn [NilEmpty.string_of_uint list_ascii_of_string forallb];
    rewrite IHu; reflexivity.
Qed.

Lemma digits_val_acc u acc :
  fold_left (fun a d => 10 * a + digit_val d) (chars (NilEmpty.string_of_uint u))
            (Zpos acc) = Zpos (Pos.of_uint_acc u acc).
Proof.
  unfold chars. revert acc.
  induction u; intros acc;
    cbn [NilEmpty.string_of_uint list_ascii_of_string fold_left Pos.of_uint_acc];
    [done|..]; rewrite <- IHu; f_equal;
    try match goal with
        | |- context [digit_val ?c] =>
            let v := eval vm_compute in (digit_val c) in
            change (digit_val c) with v
        end; lia.
Qed.

Lemma digits_val_uint u :
  digits_val (chars (NilEmpty.string_of_uint u)) = Z.of_N (Pos.of_uint u).
Proof.
  unfold digits_val.
  induction u; [done|exact IHu|..];
    cbn [NilEmpty.string_of_uint Pos.of_uint Z.of_N];
    rewrite <- digits_val_acc; reflexivity.
Qed.

Lemma digits_val_pos p :
  digits_val (chars (NilEmpty.string_of_uint (Pos.to_uint p))) = Zpos p.
Proof. by rewrite digits_val_uint, DecimalPos.Unsigned.of_to. Qed.

Lemma string_of_uint_pos p : chars (NilEmpty.string_of_uint (Pos.to_uint p)) <> [].
Proof.
  intros H. pose proof (digits_val_pos p) as Hp. rewrite H in Hp. done.
Qed.

Lemma str_of_int_pos p :
  str_of_int (Zpos p) = NilEmpty.string_of_uint (Pos.to_uint p).
Proof.
  unfold str_of_int. cbn. pose proof (DecimalPos.Unsigned.to_uint_nonnil p).
  by destruct (Pos.to_uint p).
Qed.

Lemma str_of_int_neg p :
  str_of_int (Zneg p) = String "-" (NilEmpty.string_of_uint (Pos.to_uint p)).
Proof.
  unfold str_of_int. cbn. pose proof (DecimalPos.Unsigned.to_uint_nonnil p).
  by destruct (Pos.to_uint p).
Qed.

Lemma float_of_decimal_int neg p :
  float_of_decimal neg (Zpos p) 0 =
  binary_normalize prec emax (if neg then Zneg p else Zpos p) 0 false.
Proof.
  unfold float_of_decimal. cbn [Z.leb Z.compare Z.pow].
  by destruct neg; rewrite ?Z.mul_1_r.
Qed.

Lemma float_of_int_value z f :
  float_of_int z = Ok f -> f = binary_normalize prec emax z 0 false.
Proof.
  unfold float_of_int. destruct (is_infinite _); [done|]. by intros [= <-].
Qed.

Lemma str_chars s : str (chars s) = s.
Proof. apply string_of_list_ascii_of_string. Qed.

Lemma is_ascii_str_of_int z : is_ascii (str_of_int z) = true.
Proof.
  destruct z as [|p|p].
  - reflexivity.
  - rewrite str_of_int_pos, <- (str_chars (NilEmpty.string_of_uint _)).
    apply is_ascii_str, digits_ascii, string_of_uint_digits.
  - rewrite str_of_int_neg, <- (str_chars (NilEmpty.string_of_uint _)).
    change (String "-" (str ?l)) with (str ("-"%char :: l)).
    apply is_ascii_str. cbn [forallb].
    by rewrite (digits_ascii _ (string_of_uint_digits _)).
Qed.

(** Property X13.  The decimal text of an integer reads as the float of
    that integer: when [float(z)] is defined, [float(str(z))] is the same
    float.  So the text [to_csv] writes for an integer cell, given to
    [set_cell] as a value, is stored as the float of that integer. *)
Theorem decimal_text_of_an_integer lib z f :
  float_of_int z = Ok f ->
  py_float (str_of_int z) = Some f /\
  coerce_value lib (JStr (str (csv_text lib (VInt z)))) = Ok (VFloat f).
Proof.
  intros Hf%float_of_int_value.
  assert (H : py_float (str_of_int z) = Some f).
  { subst f. destruct z as [|p|p].
    - reflexivity.
    - rewrite str_of_int_pos, <- (str_chars (NilEmpty.string_of_uint _)).
      change (str ?l) with (str ([] ++ l)).
      rewrite (py_float_digits false _ (string_of_uint_pos p)
                 (string_of_uint_digits (Pos.to_uint p))).
      by rewrite digits_val_pos, float_of_decimal_int.
    - rewrite str_of_int_neg, <- (str_chars (NilEmpty.string_of_uint _)).
      change (String "-" (str ?l)) with (str (["-"%char] ++ l)).
      rewrite (py_float_digits true _ (string_of_uint_pos p)
                 (string_of_uint_digits (Pos.to_uint p))).
      by rewrite digits_val_pos, float_of_decimal_int. }
  split; [done|].
  change (csv_text lib (VInt z)) with (chars (str_of_int z)).
  rewrite str_chars. unfold coerce_value, float_of_str.
  by rewrite is_ascii_str_of_int, H.
Qed.

Lemma lstrip_spaces sp l : forallb is_space sp = true -> lstrip (sp ++ l) = lstrip l.
Proof.
  induction sp as [|c sp IH]; [done|]. cbn.
  intros [-> H]%andb_true_iff. by apply IH.
Qed.

Lemma lstrip_app_r l sp :
  lstrip l <> [] -> lstrip (l ++ sp) = lstrip l ++ sp.
Proof.
  induction l as [|c l IH]; [done|]. cbn.
  destruct (is_space c); [apply IH|done].
Qed.

Lemma lstrip_all_spaces l sp :
  forallb is_space sp = true -> lstrip l = [] -> lstrip (l ++ sp) = [].
Proof.
  intros Hsp. induction l as [|c l IH]; cbn.
  - intros _. rewrite <- (app_nil_r sp). by rewrite lstrip_spaces.
  - destruct (is_space c); [apply IH|done].
Qed.

Lemma strip_padding sp1 l sp2 :
  forallb is_space sp1 = true -> forallb is_space sp2 = true ->
  strip (sp1 ++ l ++ sp2) = strip l.
Proof.
  intros H1 H2. unfold strip. rewrite lstrip_spaces by done.
  destruct (lstrip l) as [|c l'] eqn:E.
  - by rewrite lstrip_all_spaces.
  - rewrite lstrip_app_r by (by rewrite E). rewrite E, rev_app_distr.
    rewrite lstrip_spaces; [done|].
    rewrite forallb_forall in *. intros x Hx%in_rev. by apply H2.
Qed.

(** Property X14.  ASCII white space (space, tab, line feed, vertical
    tab, form feed, carriage return) before and after a value of ASCII
    characters does not change the number it reads as: when the value
    without it reads as a float, [set_cell] stores that float for the value
    with it. *)
Theorem white_space_around_a_value_is_ignored lib sp1 s sp2 :
  forallb is_space sp1 = true -> forallb is_space sp2 = true ->
  is_ascii s = true ->
  float_of_str lib (str (sp1 ++ chars s ++ sp2)) = float_of_str lib s /\
  (forall f, float_of_str lib s = Some f ->
     coerce_value lib (JStr (str (sp1 ++ chars s ++ sp2))) = Ok (VFloat f)).
Proof.
  intros H1 H2 Hs.
  assert (Ha : is_ascii (str (sp1 ++ chars s ++ sp2)) = true).
  { apply is_ascii_str. rewrite !forallb_app. unfold is_ascii in Hs.
    by rewrite (spaces_ascii _ H1), (spaces_ascii _ H2), Hs. }
  assert (H : float_of_str lib (str (sp1 ++ chars s ++ sp2)) = float_of_str lib s).
  { unfold float_of_str. rewrite Ha, Hs.
    unfold py_float, chars at 1. unfold str at 1.
    by rewrite list_ascii_of_string_of_list_ascii, strip_padding. }
  split; [done|]. intros f Hf. unfold coerce_value. by rewrite H, Hf.
Qed.

(** *** Decoding the file *)

Lemma load_workbook_from_b64_raises lib b64_string e :
  load_workbook_from_b64 lib b64_string = Raise e ->
  (exn_cls e = ValueError /\ exists msg, exn_msg e = (bad_encoding ++ msg)%string) \/
  (exn_cls e = OSError /\ exists msg, exn_msg e = (bad_document ++ msg)%string).
Proof.
  unfold load_workbook_from_b64.
  destruct (rbind _ _) as [wb|e']; [done|].
  destruct (is_bad_input (exn_cls e')); intros [= <-]; cbn; eauto.
Qed.

(** Property X15.  [load_workbook_from_b64] raises two kinds of exception
    and no other: a [ValueError] whose message begins with the words for an
    invalid base64 format, or an [IOError] whose message begins with the
    words for a file that does not parse.  An argument that is not a
    string gives the second kind, since [AttributeError] is not among the
    exceptions of the first clause; a string without a comma gives the
    first. *)
Theorem load_workbook_from_b64_errors lib b64_string :
  (forall e, load_workbook_from_b64 lib b64_string = Raise e ->
     (exn_cls e = ValueError /\
      exists msg, exn_msg e = (bad_encoding ++ msg)%string) \/
     (exn_cls e = OSError /\
      exists msg, exn_msg e = (bad_document ++ msg)%string)) /\
  (is_str b64_string = false ->
     load_workbook_from_b64 lib b64_string =
       raise OSError (bad_document ++ "'" ++ type_name b64_string
                        ++ "' object has no attribute 'split'")) /\
  (forall s, b64_string = JStr s -> contains c_comma s = false ->
     load_workbook_from_b64 lib b64_string =
       raise ValueError
         (bad_encoding ++ "not enough values to unpack (expected 2, got 1)")).
Proof.
  split; [apply load_workbook_from_b64_raises|]. split.
  - by destruct b64_string.
  - intros s -> Hs. unfold load_workbook_from_b64. cbn.
    destruct (split_once c_comma s) as [p|] eqn:E; [|done].
    apply split_once_contains in E. congruence.
Qed.

(** Property X16.  Only the text after the first comma of the data URL is
    decoded: the header before it is split off and not looked at, so a URL
    with any header without a comma loads as the URL with an empty header
    does; commas in the payload stay in the payload. *)
Theorem data_url_header_is_ignored lib header payload :
  contains c_comma header = false ->
  split_data_url (JStr (header ++ String c_comma payload)) = Ok (header, payload) /\
  load_workbook_from_b64 lib (JStr (header ++ String c_comma payload)) =
  load_workbook_from_b64 lib (JStr (String c_comma payload)).
Proof.
  intros H.
  assert (Hs : split_data_url (JStr (header ++ String c_comma payload)) =
               Ok (header, payload)).
  { unfold split_data_url. by rewrite split_once_app. }
  split; [done|]. unfold load_workbook_from_b64. by rewrite Hs.
Qed.

Lemma load_failure_response lib file e :
  load_workbook_from_b64 lib file = Raise e ->
  handle e = mkResponse 500 (error_body (exn_msg e)) /\
  (fails_with 500 bad_encoding (handle e) \/ fails_with 500 bad_document (handle e)).
Proof.
  intros [[Hc [msg Hm]]|[Hc [msg Hm]]]%load_workbook_from_b64_raises;
    unfold handle, fails_with; rewrite Hc, Hm; split; eauto.
Qed.

(** Property X17.  When the file of a request to one of the five tools does
    not decode, the answer has status 500, never 400, and carries the
    message of the exception, which begins with one of the two phrases of
    [load_workbook_from_b64]; no parameter after [file] is read. *)
Theorem undecodable_file_is_a_server_error lib data tool params file e
  (Htool : In tool registered)
  (Hcall : calls data (JStr tool) params)
  (Hfile : has_param params "file" file)
  (Hbad : load_workbook_from_b64 lib file = Raise e) :
  run_tool_traced lib (Body data) =
    ([EvParam "file"; EvDecode file], mkResponse 500 (error_body (exn_msg e))) /\
  (fails_with 500 bad_encoding (run_tool lib (Body data)) \/
   fails_with 500 bad_document (run_tool lib (Body data))).
Proof.
  assert (Hrun : run_tool_traced lib (Body data) =
                 ([EvParam "file"; EvDecode file], handle e)).
  { cbn in Htool. destruct Htool as [<-|[<-|[<-|[<-|[<-|[]]]]]]; run; reflexivity. }
  destruct (load_failure_response _ _ _ Hbad) as [H500 Hkind].
  unfold run_tool. rewrite Hrun. cbn [snd]. by rewrite <- H500.
Qed.

(** *** Requests and the descriptor of [get_info] *)

Lemma is_declared_registered tool_id : is_declared tool_id = is_registered tool_id.
Proof. by destruct tool_id. Qed.

Lemma is_registered_In tool_id :
  is_registered tool_id = true ->
  exists tool, tool_id = JStr tool /\ In tool registered.
Proof.
  destruct tool_id as [| | | |s| |]; try discriminate.
  unfold is_registered. intros (tool & Hin & ->%String.eqb_eq)%existsb_exists. eauto.
Qed.

Lemma unregistered_not_found lib data tool_id params :
  calls data tool_id params -> is_registered tool_id = false ->
  run_tool_traced lib (Body data) = ([], tool_not_found lib tool_id).
Proof.
  intros Hcall. unfold is_registered. cbn [existsb registered].
  intros H. repeat apply orb_false_elim in H as [? H]. by run.
Qed.

Lemma respond_status m :
  returns_only (fun r => status r = 200) m ->
  status (respond (snd m)) = 200 \/ status (respond (snd m)) = 400 \/
  status (respond (snd m)) = 500.
Proof.
  intros H. destruct (snd m) as [r|e] eqn:E; cbn.
  - left. by apply H.
  - unfold handle. destruct (exn_cls e); cbn; auto.
Qed.

Ltac returns_200 :=
  repeat first
    [ apply returns_only_bind; intros ?
    | apply returns_only_raise
    | apply returns_only_ret; reflexivity
    | match goal with
      | |- returns_only _ (if ?b then _ else _) => destruct b
      | |- returns_only _ (let '(_, _) := ?p in _) => destruct p
      | |- returns_only _ (match wb_active ?w with _ => _ end) =>
          destruct (wb_active w)
      end ].

Lemma registered_status lib data tool params :
  In tool registered -> calls data (JStr tool) params ->
  status (run_tool lib (Body data)) = 200 \/
  status (run_tool lib (Body data)) = 400 \/
  status (run_tool lib (Body data)) = 500.
Proof.
  intros Hin [H1 H2]. rewrite run_tool_respond. unfold run_tool_try.
  rewrite snd_bind. cbn [snd lift request_json rbind].
  rewrite snd_bind. cbn [snd lift]. rewrite H1. cbn [rbind].
  rewrite snd_bind. cbn [snd lift]. rewrite H2. cbn [rbind].
  cbn in Hin. destruct Hin as [<-|[<-|[<-|[<-|[<-|[]]]]]];
    cbn [is_tool String.eqb Ascii.eqb Bool.eqb];
    apply respond_status; returns_200.
Qed.

(** Property X18.  The dispatcher knows exactly the tools [get_info]
    lists: a request whose body is an object is answered with status 404 if
    and only if its tool identifier is not a string among the identifiers
    of the descriptor.  No failure of a listed tool is reported as 404. *)
Theorem not_found_iff_undeclared lib data tool_id params :
  calls data tool_id params ->
  (status (run_tool lib (Body data)) = 404 <-> is_declared tool_id = false).
Proof.
  intros Hcall. rewrite is_declared_registered. split.
  - intros H404. destruct (is_registered tool_id) eqn:E; [|done].
    destruct (is_registered_In _ E) as (tool & -> & Hin).
    destruct (registered_status lib _ _ _ Hin Hcall) as [H|[H|H]];
      rewrite H in H404; discriminate.
  - intros E. unfold run_tool.
    by rewrite (unregistered_not_found _ _ _ _ Hcall E).
Qed.

(** Property X19.  A request whose body is not a JSON object is answered
    with status 500 before any parameter is read: the body has no [get].
    A request to one of the five tools whose [parameters] member is not an
    object (null included: the default is used only for a missing member)
    is answered with status 400 at the first parameter read. *)
Theorem malformed_requests lib req :
  (well_formed req = false ->
     status (run_tool lib req) = 500 /\ fst (run_tool_traced lib req) = []) /\
  (forall data tool params,
     req = Body data -> In tool registered ->
     calls data (JStr tool) params -> is_obj params = false ->
     fst (run_tool_traced lib req) = [EvParam "file"] /\
     fails_with 400 bad_parameter (run_tool lib req)).
Proof.
  split.
  - destruct req as [[]|msg]; try discriminate; intros _; split; reflexivity.
  - intros data tool params -> Htool Hcall Hobj.
    assert (He : exists msg, py_index params "file" = raise TypeError msg).
    { destruct params; try discriminate; cbn; eauto. }
    destruct He as [msg He].
    assert (Hrun : run_tool_traced lib (Body data) =
                   ([EvParam "file"], handle (Exn TypeError msg))).
    { cbn in Htool. destruct Htool as [<-|[<-|[<-|[<-|[<-|[]]]]]]; run; reflexivity. }
    unfold run_tool. rewrite Hrun. split; [done|]. by exists msg.
Qed.

Lemma traced_by_ret {A} (a : A) : traced_by [] (ret a).
Proof. by split. Qed.

Lemma traced_by_lift {A} (r : result A) : traced_by [] (lift r).
Proof. by split. Qed.

Lemma traced_by_bind {A B} (m : M A) (k : A -> M B) e1 e2 :
  traced_by e1 m -> (forall a, snd m = Ok a -> traced_by e2 (k a)) ->
  traced_by (e1 ++ e2) (bind m k).
Proof.
  intros [Hp He] Hk. unfold traced_by. rewrite fst_bind, snd_bind.
  destruct (snd m) as [a|e] eqn:E; cbn [rbind].
  - destruct (Hk a eq_refl) as [Hp' He']. rewrite (He a eq_refl). split.
    + by apply prefix_app.
    + intros b Hb. by rewrite (He' b Hb).
  - split; [|done]. rewrite app_nil_r. by apply prefix_app_r.
Qed.

Lemma traced_by_bind_lift {A B} (r : result A) (k : A -> M B) e :
  (forall a, r = Ok a -> traced_by e (k a)) -> traced_by e (bind (lift r) k).
Proof. intros H. apply (traced_by_bind _ _ [] e); [apply traced_by_lift|done]. Qed.

Lemma traced_by_bind_param {B} params key (k : json -> M B) e :
  (forall a, py_index params key = Ok a -> traced_by e (k a)) ->
  traced_by (EvParam key :: e) (bind (param params key) k).
Proof. intros H. apply (traced_by_bind _ _ [_] e); [by split|done]. Qed.

Lemma traced_by_bind_decode {B} lib file (k : Workbook -> M B) e :
  (forall wb, load_workbook_from_b64 lib file = Ok wb -> traced_by e (k wb)) ->
  traced_by (EvDecode file :: e) (bind (decode lib file) k).
Proof. intros H. apply (traced_by_bind _ _ [_] e); [by split|done]. Qed.

Lemma omap_prefix {A B} (f : A -> option B) l1 l2 :
  l1 `prefix_of` l2 -> omap f l1 `prefix_of` omap f l2.
Proof. intros [k ->]. rewrite omap_app. by apply prefix_app_r. Qed.

Lemma has_id_tool_spec tool id name description parameters :
  has_id tool (tool_spec id name description parameters) = String.eqb id tool.
Proof. reflexivity. Qed.

(** The tools of the descriptor are the five the dispatcher knows; each
    declares [file] first, then its reference, then, for [set_cell], the
    value. *)
Lemma declared_parameters_cases tool ps :
  declared_parameters tool = Some ps ->
  In tool registered /\
  ps = "file" :: match reference_param tool with
                 | Some key =>
                     key :: (if String.eqb tool "set_cell" then ["value"] else [])
                 | None => []
                 end.
Proof.
  unfold declared_parameters.
  change (arr_member "tools" (body get_info)) with tools.
  unfold tools. cbn [find]. rewrite !has_id_tool_spec.
  repeat match goal with
  | |- context [String.eqb ?a tool] =>
      destruct (String.eqb_spec a tool) as [<-|?]; [intros [= <-]; cbn; tauto|]
  end. done.
Qed.

Ltac traced :=
  repeat first
    [ apply traced_by_ret
    | apply traced_by_lift
    | apply traced_by_bind_param; intros ? ?
    | apply traced_by_bind_decode; intros ? ?
    | apply traced_by_bind_lift; intros ? ?
    | match goal with
      | H : Ok _ = Ok _ |- _ => injection H as <-
      | H : ?x = Ok ?a, H' : ?x = Ok ?b |- _ => rewrite H in H'; injection H' as <-
      | |- traced_by _ (let '(_, _) := ?p in _) => destruct p
      | |- traced_by _ (match wb_active ?w with _ => _ end) => destruct (wb_active w)
      end ].

(** The trace of a request to a listed tool whose file decodes. *)
Lemma run_tool_try_traced lib data tool params ps file wb :
  calls data (JStr tool) params ->
  declared_parameters tool = Some ps ->
  py_index params "file" = Ok file ->
  load_workbook_from_b64 lib file = Ok wb ->
  traced_by (EvParam "file" :: EvDecode file :: map EvParam (tail ps))
            (run_tool_try lib (Body data)).
Proof.
  intros [H1 H2] [Hin ->]%declared_parameters_cases Hfile Hbook.
  unfold run_tool_try.
  apply traced_by_bind_lift. intros ? [= <-].
  apply traced_by_bind_lift. intros ? H1'. rewrite H1 in H1'. injection H1' as <-.
  apply traced_by_bind_lift. intros ? H2'. rewrite H2 in H2'. injection H2' as <-.
  cbn in Hin. destruct Hin as [<-|[<-|[<-|[<-|[<-|[]]]]]];
    cbn [is_tool String.eqb Ascii.eqb Bool.eqb reference_param orb tail map];
    traced.
Qed.

Lemma not_success_handle e : ~ is_success (handle e).
Proof. intros H. exact (success_not_failure _ H (handle_failure e)). Qed.

(** A request that stops at the first parameter. *)
Lemma read_in_order_file_only lib params ps e :
  read_in_order lib params ("file" :: ps) [EvParam "file"] (handle e).
Proof.
  split; [by exists ps|]. split; [by intros ?%not_success_handle|].
  by intros file [].
Qed.

(** A request that stops at the decoding of its file. *)
Lemma read_in_order_undecoded lib params ps file e :
  has_param params "file" file ->
  read_in_order lib params ("file" :: ps) [EvParam "file"; EvDecode file] (handle e).
Proof.
  intros Hfile. split; [by exists ps|]. split; [by intros ?%not_success_handle|].
  by intros f [<-|[]].
Qed.

Lemma params_read_map ps : params_read (map EvParam ps) = ps.
Proof.
  unfold params_read. induction ps as [|p ps IH]; [done|]. cbn. by f_equal.
Qed.

Lemma files_decoded_map ps : files_decoded (map EvParam ps) = [].
Proof. by induction ps. Qed.

Lemma read_in_order_traced lib params ps file wb (m : M Response) :
  has_param params "file" file ->
  load_workbook_from_b64 lib file = Ok wb ->
  traced_by (EvParam "file" :: EvDecode file :: map EvParam ps) m ->
  read_in_order lib params ("file" :: ps) (fst m) (respond (snd m)).
Proof.
  intros Hfile Hbook [Hpre Hfull].
  assert (Hps : params_read (EvParam "file" :: EvDecode file :: map EvParam ps) =
                "file" :: ps).
  { change (params_read (EvParam "file" :: EvDecode file :: map EvParam ps))
      with ("file" :: params_read (map EvParam ps)).
    by rewrite params_read_map. }
  assert (Hfs : files_decoded (EvParam "file" :: EvDecode file :: map EvParam ps) =
                [file]).
  { change (files_decoded (EvParam "file" :: EvDecode file :: map EvParam ps))
      with (file :: files_decoded (map EvParam ps)).
    by rewrite files_decoded_map. }
  split; [|split].
  - rewrite <- Hps. by apply omap_prefix.
  - destruct (snd m) as [r|e] eqn:E; cbn; [|by intros ?%not_success_handle].
    intros _. rewrite (Hfull r eq_refl). split; [done|]. by exists file, wb.
  - intros f Hin.
    assert (Hp : files_decoded (fst m) `prefix_of` [file]).
    { rewrite <- Hfs. by apply omap_prefix. }
    destruct Hp as [k Hk]. destruct (files_decoded (fst m)) as [|f' l]; [done|].
    injection Hk as <- Hl. destruct l; [|done].
    destruct Hin as [<-|[]]. done.
Qed.

(** Property X20.  The dispatcher reads the parameters [get_info] declares
    for the tool, in the declared order, and no other: the parameters a
    request has read are a prefix of the declared list, and the whole list
    when the request succeeds.  Nothing is decoded but the value of [file],
    at most once, and a request that succeeds has decoded it. *)
Theorem parameters_read_as_declared lib data tool params ps
  (Hcall : calls data (JStr tool) params)
  (Hdecl : declared_parameters tool = Some ps) :
  let t := fst (run_tool_traced lib (Body data)) in
  params_read t `prefix_of` ps /\
  (is_success (run_tool lib (Body data)) ->
     params_read t = ps /\
     exists file wb,
       has_param params "file" file /\
       load_workbook_from_b64 lib file = Ok wb /\
       files_decoded t = [file]) /\
  (forall file, In file (files_decoded t) ->
     has_param params "file" file /\ files_decoded t = [file]).
Proof.
  change (read_in_order lib params ps (fst (run_tool_traced lib (Body data)))
            (run_tool lib (Body data))).
  destruct (py_index params "file") as [file|e] eqn:Hfile.
  - destruct (load_workbook_from_b64 lib file) as [wb|e] eqn:Hbook.
    + pose proof (run_tool_try_traced _ _ _ _ _ _ _ Hcall Hdecl Hfile Hbook) as Ht.
      apply declared_parameters_cases in Hdecl as [_ ->].
      rewrite run_tool_respond, run_traced_split. cbn [fst].
      by eapply read_in_order_traced.
    + apply declared_parameters_cases in Hdecl as [Hin ->].
      assert (Hrun : run_tool_traced lib (Body data) =
                     ([EvParam "file"; EvDecode file], handle e)).
      { cbn in Hin. destruct Hin as [<-|[<-|[<-|[<-|[<-|[]]]]]]; run; reflexivity. }
      unfold run_tool. rewrite Hrun. by apply read_in_order_undecoded.
  - apply declared_parameters_cases in Hdecl as [Hin ->].
    assert (Hrun : run_tool_traced lib (Body data) = ([EvParam "file"], handle e)).
    { cbn in Hin. destruct Hin as [<-|[<-|[<-|[<-|[<-|[]]]]]]; run; reflexivity. }
    unfold run_tool. rewrite Hrun. apply read_in_order_file_only.
Qed.

(** *** The CSV text and the sum *)

(** Property X21.  The writer loses nothing: two tables of text fields
    that are written as the same CSV text are the same table, with the same
    rows and the same fields, whatever commas, quotes and line breaks the
    fields hold. *)
Theorem write_rows_injective rows1 rows2 :
  write_rows rows1 = write_rows rows2 -> rows1 = rows2.
Proof.
  intros H. pose proof (read_csv_write_rows rows1) as H1.
  rewrite H, read_csv_write_rows in H1. by injection H1.
Qed.

(** Property X22.  [to_csv] converts the active sheet and nothing else:
    two files whose active sheets hold the same cells get the same answer,
    whatever the title of the sheet and the other sheets are.  A workbook
    without an active sheet is answered with a 500 error. *)
Theorem to_csv_uses_the_active_sheet_only lib data params file wb
  (Hcall : calls data (JStr "to_csv") params)
  (Hfile : has_param params "file" file)
  (Hbook : load_workbook_from_b64 lib file = Ok wb) :
  (wb_active wb = None -> run_tool lib (Body data) = no_active_sheet) /\
  (forall data' params' file' wb',
     calls data' (JStr "to_csv") params' ->
     has_param params' "file" file' ->
     load_workbook_from_b64 lib file' = Ok wb' ->
     option_map cells (wb_active wb') = option_map cells (wb_active wb) ->
     run_tool lib (Body data') = run_tool lib (Body data)).
Proof.
  split.
  - intros Hnone. by run.
  - intros data' params' file' wb' Hcall' Hfile' Hbook' Hactive.
    transitivity
      (respond (match wb_active wb with
                | None => raise AttributeError
                            "'NoneType' object has no attribute 'iter_rows'"
                | Some sheet =>
                    Ok (ok_file (csv_prefix ++ b64encode lib
                          (str (write_rows (map (map (csv_text lib))
                                              (iter_rows_values sheet))))))
                end)).
    + destruct (wb_active wb') as [ws'|] eqn:E';
        destruct (wb_active wb) as [ws|] eqn:E; try discriminate.
      * injection Hactive as Hcells. clear Hcall Hfile Hbook. run.
        unfold iter_rows_values, cells_by_row, cell_at, max_row, max_column.
        by rewrite Hcells.
      * clear Hcall Hfile Hbook. by run.
    + clear Hcall' Hfile' Hbook' Hactive.
      destruct (wb_active wb) as [ws|] eqn:E; by run.
Qed.

Lemma add_all_float f xs t :
  add_all (PFloat f) xs = Ok t -> is_float t = true.
Proof.
  revert f. induction xs as [|x xs IH]; intros f; cbn.
  - by intros [= <-].
  - destruct x as [z|g]; cbn.
    + destruct (float_of_int z); cbn; [apply IH|done].
    + apply IH.
Qed.

Lemma add_all_is_float z xs t :
  add_all (PInt z) xs = Ok t -> is_float t = existsb is_float xs.
Proof.
  revert z. induction xs as [|x xs IH]; intros z; cbn.
  - by intros [= <-].
  - destruct x as [y|g]; cbn.
    + apply IH.
    + destruct (float_of_int z); cbn; [|done]. apply add_all_float.
Qed.

Lemma existsb_numeric_values cs :
  existsb is_float (numeric_values cs) = existsb holds_float cs.
Proof.
  induction cs as [|c cs IH]; [done|]. rewrite numeric_values_cons. cbn.
  unfold holds_float at 1. rewrite <- IH.
  by destruct (value c).
Qed.

(** Property X23.  The value [sum_range] returns is a float exactly when a
    cell of the range holds a float, and an integer otherwise: integers and
    booleans alone are summed as integers, and one float cell makes the sum
    a float. *)
Theorem sum_is_a_float_iff_a_cell_is lib data params file wb ref rows v
  (Hcall : calls data (JStr "sum_range") params)
  (Hfile : has_param params "file" file)
  (Hbook : load_workbook_from_b64 lib file = Ok wb)
  (Hrange : has_param params "range" (JStr ref))
  (Hres : resolves lib wb ref (RGrid rows))
  (Hrun : run_tool lib (Body data) = ok_value v) :
  is_json_float v = existsb holds_float (concat rows) /\
  (is_json_float v = false -> exists z, v = JInt z).
Proof.
  rewrite (run_sum_range _ _ _ _ _ _ Hfile Hbook Hrange _ Hcall Hres) in Hrun.
  unfold iterate in Hrun. rewrite sum_rows_add_all in Hrun.
  destruct (add_all _ _) as [t|e] eqn:E; cbn in Hrun.
  - injection Hrun as <-. apply add_all_is_float in E.
    rewrite existsb_numeric_values in E. rewrite <- E.
    destruct t; cbn; split; eauto. done.
  - unfold handle in Hrun. by destruct (exn_cls e).
Qed.

(** *** Failures of the range tools, and parameters that are not declared *)






Lemma zrange_one z : zrange z z = [z].
Proof.
  unfold zrange. replace (z + 1 - z) with 1 by lia.
  change (Z.to_nat 1) with 1%nat. cbn [seq map Z.of_nat]. f_equal. lia.
Qed.

(** Property X25.  A span whose two corners are the same cell, such as
    [A1:A1], resolves to one row of one cell, so [sum_range] accepts it,
    unlike the bare address of the cell: it returns the integer the cell
    holds, 1 or 0 for a boolean, the float added to 0, and 0 for text or
    an empty cell. *)
Theorem one_cell_span_is_summed
    lib data params file wb ref sheet_name addr ws col n
  (Hcall : calls data (JStr "sum_range") params)
  (Hfile : has_param params "file" file)
  (Hbook : load_workbook_from_b64 lib file = Ok wb)
  (Hrange : has_param params "range" (JStr ref))
  (Hsplit : split_once c_bang ref = Some (sheet_name, addr))
  (Hws : wb_getitem wb sheet_name = Ok ws)
  (Haddr : parse_address addr = Some (ASpan col n col n)) :
  let v := stored ws (Z.to_pos n) (Z.to_pos col) in
  (forall z, v = VInt z -> run_tool lib (Body data) = ok_value (JInt z)) /\
  (forall b, v = VBool b -> run_tool lib (Body data) = ok_value (JInt (Z.b2z b))) /\
  (forall f, v = VFloat f ->
     run_tool lib (Body data) = ok_value (JFloat (fadd (S754_zero false) f))) /\
  (is_int_or_float v = false -> run_tool lib (Body data) = ok_value (JInt 0)).
Proof.
  assert (Hres : resolves lib wb ref
                   (RGrid [[cell_at ws (Z.to_pos n) (Z.to_pos col)]])).
  { exists sheet_name, addr, ws. split; [done|]. split; [done|].
    unfold ws_getitem. rewrite Haddr. cbn. unfold cells_by_row.
    by rewrite !zrange_one. }
  rewrite (run_sum_range _ _ _ _ _ _ Hfile Hbook Hrange _ Hcall Hres).
  unfold stored, iterate, cell_at. cbn.
  repeat split.
  - by intros z ->.
  - by intros b ->.
  - by intros f ->.
  - by intros ->.
Qed.

(** Property X26.  The answer and the trace of a request depend on its
    tool and on the parameters [get_info] declares for the tool, and on
    nothing else of the parameter mapping: two requests to a listed tool
    that agree on each declared parameter, present or missing, get the same
    answer. *)
Theorem undeclared_parameters_are_ignored lib data data' tool params params' ps :
  calls data (JStr tool) params ->
  calls data' (JStr tool) params' ->
  declared_parameters tool = Some ps ->
  (forall p, In p ps -> py_index params p = py_index params' p) ->
  run_tool_traced lib (Body data) = run_tool_traced lib (Body data').
Proof.
  intros Hcall Hcall' [Hin ->]%declared_parameters_cases Hsame.
  assert (Hfile : py_index params "file" = py_index params' "file")
    by (apply Hsame; by left).
  destruct (py_index params' "file") as [file|e] eqn:Hfile'.
  2: { cbn in Hin. destruct Hin as [<-|[<-|[<-|[<-|[<-|[]]]]]]; run; reflexivity. }
  destruct (load_workbook_from_b64 lib file) as [wb|e] eqn:Hbook.
  2: { cbn in Hin. destruct Hin as [<-|[<-|[<-|[<-|[<-|[]]]]]]; run; reflexivity. }
  cbn in Hin. destruct Hin as [<-|[<-|[<-|[<-|[<-|[]]]]]];
    cbn [reference_param String.eqb Ascii.eqb Bool.eqb orb] in Hsame.
  - assert (Hr : py_index params "range" = py_index params' "range")
      by (apply Hsame; right; by left).
    destruct (py_index params' "range") as [range|e] eqn:Hr'; run; reflexivity.
  - assert (Hr : py_index params "range" = py_index params' "range")
      by (apply Hsame; right; by left).
    destruct (py_index params' "range") as [range|e] eqn:Hr'; run; reflexivity.
  - assert (Hr : py_index params "cell" = py_index params' "cell")
      by (apply Hsame; right; by left).
    destruct (py_index params' "cell") as [cell|e] eqn:Hr'; run; reflexivity.
  - assert (Hr : py_index params "cell" = py_index params' "cell")
      by (apply Hsame; right; by left).
    assert (Hv : py_index params "value" = py_index params' "value")
      by (apply Hsame; right; right; by left).
    destruct (py_index params' "cell") as [cell|e] eqn:Hr'; [|run; reflexivity].
    destruct (parse_range_string cell) as [[sheet_name addr]|e] eqn:Hparse;
      [|run; reflexivity].
    destruct (py_index params' "value") as [v|e] eqn:Hv'; run; reflexivity.
  - run; reflexivity.
Qed.

(** ** The worked example, run *)

Module Runs.
Import Demo.

Lemma calls_request_data tool params :
  calls (request_data tool params) (JStr tool) (JObj params).
Proof. split; reflexivity. Defined.

Lemma resolves_col_a : resolves lib book "Sheet1!A1:A3" (RGrid col_a).
Proof. exists "Sheet1", "A1:A3", sheet1. repeat split; vm_compute; reflexivity. Defined.

Lemma single_cell_b2 : single_cell book "Sheet1!B2" "Sheet1" "B2" sheet1 2 2.
Proof. repeat split; vm_compute; reflexivity. Defined.



(** The average of A1:A3 is 3. *)
Lemma avg_range_example :
  resolves lib book "Sheet1!A1:A3" (RGrid col_a) /\
  arithmetic_sum (numeric_values (concat col_a)) = Ok (PInt 6) /\
  py_truediv (PInt 6) 2 = Ok (PFloat float_three) /\
  run_tool lib (call "avg_range" range_a) = ok_value (JFloat float_three).
Proof.
  refine (conj resolves_col_a (conj eq_refl (conj eq_refl _))).
  refine (proj1 (avg_range_result lib (request_data "avg_range" range_a)
                   (JObj range_a) (snd file_param) book "Sheet1!A1:A3"
                   eq_refl eq_refl eq_refl col_a
                   (calls_request_data "avg_range" range_a) resolves_col_a)
                (PInt 6) (PFloat float_three) eq_refl _ eq_refl).
  discriminate.
Defined.

(** A reference to the single cell A3, which holds text, resolves; the
    range has no numeric cell, and [avg_range] answers with an error
    instead of 0. *)
Lemma avg_range_single_cell :
  load_workbook_from_b64 lib (snd file_param) = Ok book /\
  resolves lib book "Sheet1!A3" (RCell (mkCell 3 1 (VStr "x"))) /\
  run_tool lib (call "avg_range" [file_param; ("range", JStr "Sheet1!A3")]) =
    cell_not_iterable /\
  status cell_not_iterable = 400.
Proof.
  split; [reflexivity|]. split; [|split; vm_compute; reflexivity].
  exists "Sheet1", "A3", sheet1. repeat split; vm_compute; reflexivity.
Qed.





(** The example sheet as CSV: three records of one field. *)
Lemma to_csv_example :
  wb_active book = Some sheet1 /\
  exists csv_content,
    run_tool lib (call "to_csv" [file_param]) =
      ok_file (csv_prefix ++ b64encode lib csv_content) /\
    read_csv (chars csv_content) = Some [[c2]; [c4]; [cx]].
Proof.
  split; [reflexivity|].
  destruct (to_csv_records lib _ (JObj [file_param]) (snd file_param) book sheet1
              (calls_request_data "to_csv" [file_param]) eq_refl eq_refl eq_refl)
    as (csv_content & records & Hrun & Hread & _).
  exists csv_content. split; [exact Hrun|].
  rewrite Hread. f_equal.
  assert (Hc : csv_content = str (write_rows [[c2]; [c4]; [cx]])).
  { vm_compute in Hrun. injection Hrun as Hc. subst csv_content. reflexivity. }
  subst csv_content. unfold chars, str in Hread.
  rewrite list_ascii_of_string_of_list_ascii, read_csv_write_rows in Hread.
  by injection Hread as <-.
Defined.



(** A reference without [!] on a file that decodes. *)
Lemma reference_needs_bang_example :
  reference_param "get_cell" = Some "cell" /\
  contains c_bang "A1" = false /\
  run_tool lib (call "get_cell" [file_param; ("cell", JStr "A1")]) =
    invalid_reference.
Proof.
  refine (conj eq_refl (conj eq_refl _)).
  exact (proj2 (proj1 (reference_needs_bang lib _ "get_cell" "cell"
                         (JObj [file_param; ("cell", JStr "A1")]) "A1" eq_refl
                         (calls_request_data "get_cell"
                            [file_param; ("cell", JStr "A1")])
                         eq_refl)
                      eq_refl)
               (snd file_param) book eq_refl eq_refl).
Defined.

(** A reference without [!] on a file that does not decode: the error is
    the one of the file, not the one of the reference. *)
Lemma reference_without_bang_bad_file :
  contains c_bang "A1" = false /\
  run_tool lib (call "sum_range" [bad_file; ("range", JStr "A1")]) =
    invalid_encoding /\
  invalid_encoding <> invalid_reference.
Proof. split; [reflexivity|]. split; [vm_compute; reflexivity | discriminate]. Qed.

(** [sum_range] without its [file], and without its [range]; [set_cell]
    without its [value]; and a tool that is not registered. *)
Lemma missing_parameter_example :
  lacks_param (JObj [("range", JStr "Sheet1!A1:A3")]) "file" /\
  run_tool_traced lib (call "sum_range" [("range", JStr "Sheet1!A1:A3")]) =
    ([EvParam "file"], missing_param "file") /\
  lacks_param (JObj [file_param]) "range" /\
  run_tool_traced lib (call "sum_range" [file_param]) =
    ([EvParam "file"; EvDecode (snd file_param); EvParam "range"],
     missing_param "range") /\
  lacks_param (JObj [file_param; ("cell", JStr "Sheet1!B2")]) "value" /\
  run_tool_traced lib (call "set_cell" [file_param; ("cell", JStr "Sheet1!B2")]) =
    ([EvParam "file"; EvDecode (snd file_param); EvParam "cell"; EvParam "value"],
     missing_param "value") /\
  run_tool_traced lib (call "does_not_exist" [file_param]) =
    ([], tool_not_found lib (JStr "does_not_exist")).
Proof.
  assert (Hfile : lacks_param (JObj [("range", JStr "Sheet1!A1:A3")]) "file")
    by (by eexists).
  assert (Hrange : lacks_param (JObj [file_param]) "range") by (by eexists).
  assert (Hvalue : lacks_param (JObj [file_param; ("cell", JStr "Sheet1!B2")]) "value")
    by (by eexists).
  refine (conj Hfile (conj _ (conj Hrange (conj _ (conj Hvalue (conj _ _)))))).
  - exact (proj1 (missing_parameter_and_unknown_tool lib _ _
                    (JObj [("range", JStr "Sheet1!A1:A3")])
                    (calls_request_data "sum_range" [("range", JStr "Sheet1!A1:A3")]))
                 "sum_range" eq_refl (or_introl eq_refl) Hfile).
  - exact (proj1 (proj2 (missing_parameter_and_unknown_tool lib _ _
                    (JObj [file_param])
                    (calls_request_data "sum_range" [file_param])))
                 "sum_range" "range" (snd file_param) book
                 eq_refl eq_refl eq_refl eq_refl Hrange).
  - exact (proj1 (proj2 (proj2 (missing_parameter_and_unknown_tool lib _ _
                    (JObj [file_param; ("cell", JStr "Sheet1!B2")])
                    (calls_request_data "set_cell"
                       [file_param; ("cell", JStr "Sheet1!B2")]))))
                 (snd file_param) book "Sheet1!B2" "Sheet1" "B2"
                 eq_refl eq_refl eq_refl eq_refl eq_refl Hvalue).
  - exact (proj2 (proj2 (proj2 (missing_parameter_and_unknown_tool lib _ _
                    (JObj [file_param])
                    (calls_request_data "does_not_exist" [file_param]))))
                 eq_refl).
Defined.

(** [sum_range] without its [range]: the file is decoded before the
    parameter is missed, and when the file does not decode the response is
    the 500 error of the file, not the 400 error of the parameter.  A
    [file] that is a number instead of a string is answered with a 500
    error as well.  [set_cell] without its [value] and with a cell
    reference that has no [!]: the reference is split before the value is
    read, and the response is the 500 error of the reference. *)
Lemma missing_range_after_decoding :
  lacks_param (JObj [file_param]) "range" /\
  run_tool_traced lib (call "sum_range" [file_param]) =
    ([EvParam "file"; EvDecode (snd file_param); EvParam "range"],
     missing_param "range") /\
  lacks_param (JObj [bad_file]) "range" /\
  run_tool_traced lib (call "sum_range" [bad_file]) =
    ([EvParam "file"; EvDecode (snd bad_file)], invalid_encoding) /\
  status invalid_encoding = 500 /\
  status (run_tool lib (call "to_csv" [("file", JInt 5)])) = 500 /\
  lacks_param (JObj [file_param; ("cell", JStr "A1")]) "value" /\
  run_tool_traced lib (call "set_cell" [file_param; ("cell", JStr "A1")]) =
    ([EvParam "file"; EvDecode (snd file_param); EvParam "cell"],
     invalid_reference) /\
  status invalid_reference = 500.
Proof. repeat split; try (by eexists); vm_compute; reflexivity. Qed.

End Runs.

(** ** Further runs of the example *)

Module Cases.
Import Demo.

(** A reference with two [!] is split at the first. *)
Lemma parse_range_string_inverse_example :
  parse_range_string (JStr "Sheet1!A1!B2") = Ok ("Sheet1", "A1!B2").
Proof.
  exact (proj2 (parse_range_string_inverse (JStr "Sheet1!A1!B2") "Sheet1" "A1!B2")
               (conj eq_refl eq_refl)).
Defined.

(** [get_cell] with the number 5 as its reference. *)
Lemma reference_must_be_a_string_example :
  run_tool lib (call "get_cell" [file_param; ("cell", JInt 5)]) =
    mkResponse 400
      (error_body
         "Missing or invalid parameter: argument of type 'int' is not iterable").
Proof.
  exact (proj1 (proj2 (reference_must_be_a_string lib _ "get_cell" "cell"
                         (JObj [file_param; ("cell", JInt 5)]) (snd file_param)
                         book (JInt 5) eq_refl
                         (Runs.calls_request_data "get_cell"
                            [file_param; ("cell", JInt 5)])
                         eq_refl eq_refl eq_refl eq_refl))
               eq_refl).
Defined.

(** [get_cell] on a sheet the example workbook does not have. *)
Lemma unknown_sheet_example :
  no_sheet book "Nope" /\
  fails_with 400 bad_parameter
    (run_tool lib (call "get_cell" [file_param; ("cell", JStr "Nope!A1")])).
Proof.
  assert (Hnone : no_sheet book "Nope") by (repeat constructor; discriminate).
  split; [exact Hnone|].
  apply (unknown_sheet_is_a_bad_parameter lib _ "get_cell" "cell"
           (JObj [file_param; ("cell", JStr "Nope!A1")]) (snd file_param) book
           "Nope!A1" "Nope" "A1" eq_refl
           (Runs.calls_request_data "get_cell"
              [file_param; ("cell", JStr "Nope!A1")])
           eq_refl eq_refl eq_refl eq_refl); [discriminate|exact Hnone].
Defined.

(** The sheet [Q1!Q2] cannot be addressed. *)
Lemma sheet_titles_with_bang_example :
  is_failure
    (run_tool shelf (call "get_cell" [quarter_file; ("cell", JStr "Q1!Q2!A1")])).
Proof.
  apply (sheet_titles_with_bang_are_out_of_reach shelf _ "get_cell" "cell"
           (JObj [quarter_file; ("cell", JStr "Q1!Q2!A1")]) (snd quarter_file)
           quarter_book eq_refl
           (Runs.calls_request_data "get_cell"
              [quarter_file; ("cell", JStr "Q1!Q2!A1")])
           eq_refl eq_refl).
  repeat constructor.
Defined.

Lemma resolves_column_a : resolves lib book "Sheet1!A" (RTuple col_a_flat).
Proof. exists "Sheet1", "A", sheet1. repeat split; vm_compute; reflexivity. Defined.

(** The sum of the whole column A is refused. *)
Lemma range_tools_need_rows_example :
  run_tool lib (call "sum_range" [file_param; ("range", JStr "Sheet1!A")]) =
    cell_not_iterable.
Proof.
  exact (range_tools_need_rows lib _ "sum_range"
           (JObj [file_param; ("range", JStr "Sheet1!A")]) (snd file_param) book
           "Sheet1!A" (RTuple col_a_flat) (or_introl eq_refl)
           (Runs.calls_request_data "sum_range"
              [file_param; ("range", JStr "Sheet1!A")])
           eq_refl eq_refl eq_refl resolves_column_a eq_refl).
Defined.

(** [get_cell] on the span A1:A3 is refused. *)
Lemma cell_tools_need_a_cell_example :
  run_tool lib (call "get_cell" [file_param; ("cell", JStr "Sheet1!A1:A3")]) =
    tuple_has_no_value.
Proof.
  exact (proj1 (cell_tools_need_a_cell lib
                  (request_data "get_cell" [file_param; ("cell", JStr "Sheet1!A1:A3")])
                  (JObj [file_param; ("cell", JStr "Sheet1!A1:A3")])
                  (snd file_param) book "Sheet1!A1:A3" (RGrid col_a)
                  eq_refl eq_refl eq_refl Runs.resolves_col_a eq_refl)
               (Runs.calls_request_data "get_cell"
                  [file_param; ("cell", JStr "Sheet1!A1:A3")])).
Defined.

Lemma single_cell_a3 : single_cell book "Sheet1!A3" "Sheet1" "A3" sheet1 1 3.
Proof. repeat split; vm_compute; reflexivity. Defined.

(** A3 holds the text [x], and B2 holds nothing. *)
Lemma get_cell_example :
  run_tool lib (call "get_cell" [file_param; ("cell", JStr "Sheet1!A3")]) =
    ok_value (JStr "x") /\
  run_tool lib (call "get_cell" [file_param; ("cell", JStr "Sheet1!B2")]) =
    ok_value JNull.
Proof.
  split.
  - exact (proj1 (get_cell_returns_raw_value lib _
                    (JObj [file_param; ("cell", JStr "Sheet1!A3")])
                    (snd file_param) book "Sheet1!A3" "Sheet1" "A3" sheet1 1 3
                    (Runs.calls_request_data "get_cell"
                       [file_param; ("cell", JStr "Sheet1!A3")])
                    eq_refl eq_refl eq_refl single_cell_a3)).
  - exact (proj2 (get_cell_returns_raw_value lib _
                    (JObj [file_param; ("cell", JStr "Sheet1!B2")])
                    (snd file_param) book "Sheet1!B2" "Sheet1" "B2" sheet1 2 2
                    (Runs.calls_request_data "get_cell"
                       [file_param; ("cell", JStr "Sheet1!B2")])
                    eq_refl eq_refl eq_refl Runs.single_cell_b2)
                 eq_refl).
Defined.

Lemma write_b2_written : write_cell lib book "Sheet1" "B2" (JStr "5") = Ok written.
Proof. vm_compute. reflexivity. Defined.

Lemma write_c1_noted : write_cell lib book "Sheet1" "C1" (JStr "n") = Ok noted.
Proof. vm_compute. reflexivity. Defined.

(** Writing 5 into B2 keeps the sheets and their order, and A1. *)
Lemma write_cell_changes_one_cell_example :
  map title (sheets written) = map title (sheets book) /\
  active_index written = active_index book /\
  exists ws', wb_getitem written "Sheet1" = Ok ws' /\
              stored ws' 1 1 = stored sheet1 1 1.
Proof.
  destruct (write_cell_changes_one_cell lib book "Sheet1" "B2" (JStr "5") written
              write_b2_written)
    as (Htitles & Hactive & _ & ws & ws' & r & c & Hws & Hws' & Hother & Hat).
  split; [exact Htitles|]. split; [exact Hactive|].
  exists ws'. split; [exact Hws'|].
  assert (ws = sheet1) as -> by (vm_compute in Hws; by injection Hws as <-).
  destruct (Hat 2 2 eq_refl) as [-> ->]. by apply Hother.
Defined.

(** Writing 7 into B2 after 5 is writing 7. *)
Lemma write_cell_last_write_wins_example :
  write_cell lib written "Sheet1" "B2" (JStr "7") =
  write_cell lib book "Sheet1" "B2" (JStr "7").
Proof.
  exact (write_cell_last_write_wins lib book "Sheet1" "B2" 2 2 (JStr "5") (JStr "7")
           written eq_refl write_b2_written).
Defined.

(** B2 and C1 can be written in either order. *)
Lemma writes_commute_example :
  exists wb12,
    write_cell lib written "Sheet1" "C1" (JStr "n") = Ok wb12 /\
    write_cell lib noted "Sheet1" "B2" (JStr "5") = Ok wb12.
Proof.
  apply (writes_to_different_cells_commute lib book
           "Sheet1" "B2" 2 2 (JStr "5") "Sheet1" "C1" 3 1 (JStr "n") written noted
           eq_refl eq_refl); [discriminate|exact write_b2_written|exact write_c1_noted].
Defined.

(** [set_cell] with the value null. *)
Lemma set_cell_value_kinds_example :
  run_tool lib (call "set_cell"
                  [file_param; ("cell", JStr "Sheet1!B2"); ("value", JNull)]) =
    float_needs_a_number JNull.
Proof.
  exact (proj1 (set_cell_value_kinds lib _
                  (JObj [file_param; ("cell", JStr "Sheet1!B2"); ("value", JNull)])
                  (snd file_param) book "Sheet1!B2" "Sheet1" "B2" sheet1 JNull
                  (Runs.calls_request_data "set_cell"
                     [file_param; ("cell", JStr "Sheet1!B2"); ("value", JNull)])
                  eq_refl eq_refl eq_refl eq_refl eq_refl eq_refl)
               eq_refl).
Defined.

(** The value [42] reads as a float, and that float is stored. *)
Lemma digits_read_as_float_example :
  float_of_str lib "42" = Some (float_of_digits (chars "42")) /\
  coerce_value lib (JStr "42") = Ok (VFloat (float_of_digits (chars "42"))).
Proof.
  assert (Hne : chars "42" <> []) by discriminate.
  destruct (digits_read_as_float lib (chars "42") Hne eq_refl) as (Hf & Hv & _).
  exact (conj Hf Hv).
Defined.

(** The text of -17 reads as the float of -17. *)
Lemma decimal_text_example :
  exists f, float_of_int (-17) = Ok f /\ py_float "-17" = Some f.
Proof.
  eexists. split; [vm_compute; reflexivity|].
  exact (proj1 (decimal_text_of_an_integer lib (-17) _ eq_refl)).
Defined.

(** The value [5] between a space and a line feed reads as [5] does, and
    is stored as the float 5. *)
Lemma white_space_example :
  float_of_str lib (str (chars " " ++ chars "5" ++ [c_lf])) = float_of_str lib "5" /\
  coerce_value lib (JStr (str (chars " " ++ chars "5" ++ [c_lf]))) =
    Ok (VFloat float_five).
Proof.
  destruct (white_space_around_a_value_is_ignored lib (chars " ") "5" [c_lf]
              eq_refl eq_refl eq_refl) as [Hsame Hstored].
  exact (conj Hsame (Hstored float_five eq_refl)).
Defined.

(** A file that is a number, not a string. *)
Lemma load_workbook_from_b64_errors_example :
  load_workbook_from_b64 lib (JInt 5) =
    raise OSError "Failed to parse Excel file: 'int' object has no attribute 'split'".
Proof.
  exact (proj1 (proj2 (load_workbook_from_b64_errors lib (JInt 5))) eq_refl).
Defined.

(** The data URL the server returns is split at the comma of its header,
    also when the payload has a comma. *)
Lemma data_url_header_example :
  split_data_url (JStr (xlsx_prefix ++ "UEs,DBBQ")) = Ok (xlsx_header, "UEs,DBBQ").
Proof.
  exact (proj1 (data_url_header_is_ignored lib xlsx_header "UEs,DBBQ" eq_refl)).
Defined.

(** [sum_range] on a file that is not a data URL. *)
Lemma undecodable_file_example :
  run_tool_traced lib (call "sum_range" [bad_file; ("range", JStr "Sheet1!A1:A3")]) =
    ([EvParam "file"; EvDecode (snd bad_file)], invalid_encoding).
Proof.
  exact (proj1 (undecodable_file_is_a_server_error lib _ "sum_range"
                  (JObj [bad_file; ("range", JStr "Sheet1!A1:A3")]) (snd bad_file)
                  not_enough_values (or_introl eq_refl)
                  (Runs.calls_request_data "sum_range"
                     [bad_file; ("range", JStr "Sheet1!A1:A3")])
                  eq_refl eq_refl)).
Defined.

(** A tool that is not listed, and a request without a tool identifier. *)
Lemma not_found_example :
  status (run_tool lib (call "does_not_exist" [file_param])) = 404 /\
  status (run_tool lib (Body (JObj []))) = 404 /\
  status (run_tool lib (call "to_csv" [])) <> 404.
Proof.
  split; [|split].
  - exact (proj2 (not_found_iff_undeclared lib _ (JStr "does_not_exist")
                    (JObj [file_param])
                    (Runs.calls_request_data "does_not_exist" [file_param]))
                 eq_refl).
  - exact (proj2 (not_found_iff_undeclared lib (JObj []) JNull (JObj [])
                    (conj eq_refl eq_refl))
                 eq_refl).
  - intros H.
    pose proof (proj1 (not_found_iff_undeclared lib _ (JStr "to_csv") (JObj [])
                         (Runs.calls_request_data "to_csv" [])) H) as E.
    discriminate E.
Defined.

(** A body that is an array, and parameters that are a string. *)
Lemma malformed_requests_example :
  status (run_tool lib (Body (JArr []))) = 500 /\
  fails_with 400 bad_parameter
    (run_tool lib (Body (JObj [("tool_id", JStr "to_csv");
                               ("parameters", JStr "file")]))).
Proof.
  split.
  - exact (proj1 (proj1 (malformed_requests lib (Body (JArr []))) eq_refl)).
  - exact (proj2 (proj2 (malformed_requests lib _)
                    (JObj [("tool_id", JStr "to_csv"); ("parameters", JStr "file")])
                    "to_csv" (JStr "file") eq_refl
                    (or_intror (or_intror (or_intror (or_intror (or_introl eq_refl)))))
                    (conj eq_refl eq_refl) eq_refl)).
Defined.

(** [set_cell] on the example reads [file], [cell] and [value], and
    decodes the file. *)
Lemma parameters_read_example :
  declared_parameters "set_cell" = Some ["file"; "cell"; "value"] /\
  params_read (fst (run_tool_traced lib (call "set_cell" write_b2))) =
    ["file"; "cell"; "value"] /\
  files_decoded (fst (run_tool_traced lib (call "set_cell" write_b2))) =
    [snd file_param].
Proof.
  split; [reflexivity|].
  destruct (parameters_read_as_declared lib _ "set_cell" (JObj write_b2)
              ["file"; "cell"; "value"]
              (Runs.calls_request_data "set_cell" write_b2) eq_refl)
    as (_ & Hfull & _).
  destruct Hfull as (Hread & file & wb & Hfile & _ & Hdecoded).
  { repeat split; vm_compute; eauto. }
  split; [exact Hread|]. refine (eq_trans Hdecoded _). f_equal.
  vm_compute in Hfile. by injection Hfile as <-.
Defined.

(** Two tables with the same text. *)
Lemma write_rows_injective_example :
  write_rows [[c2; cx]; [c4]] = write_rows [[c2; cx]; [c4]] /\
  [[c2; cx]; [c4]] = [[c2; cx]; [c4]].
Proof.
  split; [reflexivity|].
  exact (write_rows_injective [[c2; cx]; [c4]] [[c2; cx]; [c4]] eq_refl).
Defined.

(** The example sheet gives the same CSV file when it is the first of two
    sheets. *)
Lemma to_csv_active_sheet_example :
  run_tool shelf (call "to_csv" [two_file]) =
  run_tool shelf (call "to_csv" [file_param]).
Proof.
  exact (proj2 (to_csv_uses_the_active_sheet_only shelf _ (JObj [file_param])
                  (snd file_param) book
                  (Runs.calls_request_data "to_csv" [file_param]) eq_refl eq_refl)
               _ (JObj [two_file]) (snd two_file) two_sheets
               (Runs.calls_request_data "to_csv" [two_file]) eq_refl eq_refl eq_refl).
Defined.

(** The sum of A1:A3 is an integer: no cell of the range holds a float. *)
Lemma sum_is_an_integer_example :
  run_tool lib (call "sum_range" range_a) = ok_value (JInt 6) /\
  existsb holds_float (concat col_a) = false.
Proof.
  split; [vm_compute; reflexivity|].
  symmetry.
  exact (proj1 (sum_is_a_float_iff_a_cell_is lib _ (JObj range_a) (snd file_param)
                  book "Sheet1!A1:A3" col_a (JInt 6)
                  (Runs.calls_request_data "sum_range" range_a)
                  eq_refl eq_refl eq_refl Runs.resolves_col_a eq_refl)).
Defined.


(** The sum of the span A1:A1 is the value of A1. *)
Lemma one_cell_span_example :
  run_tool lib (call "sum_range" [file_param; ("range", JStr "Sheet1!A1:A1")]) =
    ok_value (JInt 2).
Proof.
  exact (proj1 (one_cell_span_is_summed lib _
                  (JObj [file_param; ("range", JStr "Sheet1!A1:A1")])
                  (snd file_param) book "Sheet1!A1:A1" "Sheet1" "A1:A1" sheet1 1 1
                  (Runs.calls_request_data "sum_range"
                     [file_param; ("range", JStr "Sheet1!A1:A1")])
                  eq_refl eq_refl eq_refl eq_refl eq_refl eq_refl)
               2 eq_refl).
Defined.

(** [get_cell] with a parameter it does not declare, and with its
    parameters in another order. *)
Lemma undeclared_parameters_example :
  run_tool_traced lib
    (call "get_cell" [file_param; ("cell", JStr "Sheet1!A3"); ("note", JStr "n")]) =
  run_tool_traced lib (call "get_cell" [("cell", JStr "Sheet1!A3"); file_param]).
Proof.
  apply (undeclared_parameters_are_ignored lib _ _ "get_cell"
           (JObj [file_param; ("cell", JStr "Sheet1!A3"); ("note", JStr "n")])
           (JObj [("cell", JStr "Sheet1!A3"); file_param]) ["file"; "cell"]
           (Runs.calls_request_data "get_cell"
              [file_param; ("cell", JStr "Sheet1!A3"); ("note", JStr "n")])
           (Runs.calls_request_data "get_cell"
              [("cell", JStr "Sheet1!A3"); file_param])
           eq_refl).
  intros p [<-|[<-|[]]]; reflexivity.
Defined.

End Cases.
